(** * lowest_price_5star.js: stay window, price parsing, provider names,
      aggregation and the browser life cycle

    A shallow embedding of [src/lowest_price_5star.js].  JavaScript strings
    are sequences of UTF-16 code units, numbers are either [NaN] or the exact
    rational they denote, dates are time values in milliseconds, and the
    insertion-ordered [Map] of the aggregation step is an association list. *)

From Stdlib Require Import ZArith QArith Lqa List String Ascii Bool Lia.
From Stdlib Require Import Permutation Sorted.
Import ListNotations.

Local Open Scope Z_scope.

(* ================================================================== *)
(** * JavaScript values used by the program *)
(* ================================================================== *)

Module JS.

(** A JavaScript string: its UTF-16 code units ([length] counts them). *)
Definition jsstring := list N.

Definition jsstring_eqb (a b : jsstring) : bool :=
  if list_eq_dec N.eq_dec a b then true else false.

Definition bytes_of_string (s : string) : list N :=
  map N_of_ascii (list_ascii_of_string s).

(** Literals are written as UTF-8 text and decoded to code units, so that
    ["₹"] is the single unit 0x20B9. *)
Fixpoint utf16_of_utf8 (bs : list N) : jsstring :=
  match bs with
  | [] => []
  | b :: r =>
    if (b <? 128)%N then b :: utf16_of_utf8 r
    else
      match r with
      | [] => []
      | c :: r1 =>
        if (b <? 224)%N
        then ((b mod 32) * 64 + c mod 64)%N :: utf16_of_utf8 r1
        else
          match r1 with
          | [] => []
          | d :: r2 =>
            if (b <? 240)%N
            then ((b mod 16) * 4096 + (c mod 64) * 64 + d mod 64)%N
                   :: utf16_of_utf8 r2
            else
              match r2 with
              | [] => []
              | e :: r3 =>
                let cp := ((b mod 8) * 262144 + (c mod 64) * 4096
                           + (d mod 64) * 64 + e mod 64 - 65536)%N in
                (55296 + cp / 1024)%N :: (56320 + cp mod 1024)%N
                  :: utf16_of_utf8 r3
              end
          end
      end
  end.

Definition js (s : string) : jsstring := utf16_of_utf8 (bytes_of_string s).

Fixpoint takeWhile {A : Type} (f : A -> bool) (l : list A) : list A :=
  match l with
  | [] => []
  | x :: l' => if f x then x :: takeWhile f l' else []
  end.

Fixpoint dropWhile {A : Type} (f : A -> bool) (l : list A) : list A :=
  match l with
  | [] => []
  | x :: l' => if f x then dropWhile f l' else l
  end.

(** WhiteSpace and LineTerminator code units: what [\s] matches and what
    [String.prototype.trim] removes. *)
Definition isWhiteSpace (c : N) : bool :=
  ((9 <=? c) && (c <=? 13) || (c =? 32) || (c =? 160) || (c =? 5760)
   || (8192 <=? c) && (c <=? 8202) || (c =? 8232) || (c =? 8233)
   || (c =? 8239) || (c =? 8287) || (c =? 12288) || (c =? 65279))%N.

Definition isDigit (c : N) : bool := ((48 <=? c) && (c <=? 57))%N.

Definition trimStart (s : jsstring) : jsstring := dropWhile isWhiteSpace s.

Definition trimEnd (s : jsstring) : jsstring :=
  rev (dropWhile isWhiteSpace (rev s)).

(** [s.trim()] *)
Definition trim (s : jsstring) : jsstring := trimEnd (trimStart s).

(** [s.split("\n")[0]]: the text before the first line feed. *)
Definition firstLine (s : jsstring) : jsstring :=
  takeWhile (fun c => negb (c =? 10)%N) s.

(** [s.toLowerCase()].  Latin capitals map to small letters; U+212A (Kelvin
    sign) maps to [k] and U+0130 to [i] followed by U+0307.  Every other
    unit outside ASCII is kept: its lower-case form is outside ASCII as well,
    so the search for an ASCII needle below is not affected. *)
Definition lowerUnit (c : N) : list N :=
  if ((65 <=? c) && (c <=? 90))%N then [(c + 32)%N]
  else if (c =? 8490)%N then [107%N]
  else if (c =? 304)%N then [105%N; 775%N]
  else [c].

Definition toLowerCase (s : jsstring) : jsstring := flat_map lowerUnit s.

Fixpoint startsWith (s prefix : jsstring) {struct prefix} : bool :=
  match prefix, s with
  | [], _ => true
  | _ :: _, [] => false
  | p :: prefix', c :: s' => (p =? c)%N && startsWith s' prefix'
  end.

(** [s.includes(needle)] *)
Fixpoint includes (s needle : jsstring) : bool :=
  startsWith s needle
  || match s with
     | [] => false
     | _ :: s' => includes s' needle
     end.

(** [s.replace(/,/g, "")] *)
Definition removeCommas (s : jsstring) : jsstring :=
  filter (fun c => negb (c =? 44)%N) s.

(** A JavaScript number as this program meets it: [NaN], or a number,
    modelled by the exact rational it denotes (rounding to binary64 and the
    infinities are not modelled). *)
Inductive number : Type :=
| NaN : number
| Num : Q -> number.

Definition isNumber (x : number) : bool :=
  match x with
  | NaN => false
  | Num _ => true
  end.

(** [a < b]: false as soon as one side is [NaN]. *)
Definition lt (a b : number) : bool :=
  match a, b with
  | Num x, Num y => negb (Qle_bool y x)
  | _, _ => false
  end.

(** [a - b] *)
Definition sub (a b : number) : number :=
  match a, b with
  | Num x, Num y => Num (x - y)
  | _, _ => NaN
  end.

Fixpoint digitsValue (acc : N) (ds : list N) : N :=
  match ds with
  | [] => acc
  | d :: ds' => digitsValue (10 * acc + (d - 48))%N ds'
  end.

Fixpoint pow10 (n : nat) : positive :=
  match n with
  | O => 1%positive
  | S n' => (10 * pow10 n')%positive
  end.

(** The unsigned part [digits? (. digits?)?] at the head of [s], with the
    sign read before it. *)
Definition decimalPrefix (neg : bool) (s : jsstring) : number :=
  let ip := takeWhile isDigit s in
  let fp :=
    match dropWhile isDigit s with
    | c :: r => if (c =? 46)%N then takeWhile isDigit r else []
    | [] => []
    end in
  match ip ++ fp with
  | [] => NaN
  | ds =>
    let m := Z.of_N (digitsValue 0 ds) in
    Num (Qmake (if neg then - m else m) (pow10 (List.length fp)))
  end.

(** [parseFloat(s)]: leading white space is skipped, then the longest prefix
    of the form [sign? digits? (. digits?)?] with at least one digit is read;
    [NaN] when there is none.  The exponent part and the [Infinity] literal
    are left out: the program only passes strings of digits and points. *)
Definition parseFloat (s : jsstring) : number :=
  match trimStart s with
  | [] => NaN
  | c :: r =>
    if (c =? 45)%N then decimalPrefix true r
    else if (c =? 43)%N then decimalPrefix false r
    else decimalPrefix false (c :: r)
  end.

End JS.

Import JS.

(* ================================================================== *)
(** * Dates: time values, local time and the calendar *)
(* ================================================================== *)

Module JSDate.

(** A date is its time value: milliseconds since 1 January 1970 UTC, an
    integer.  An invalid date is [None] where one can arise.  The bound of
    8.64e15 ms that [TimeClip] puts on time values is not modelled. *)
Definition msPerDay : Z := 86400000.

(** ECMAScript [Day(t)], [DaysInYear(y)] and [DayFromYear(y)]. *)
Definition Day (t : Z) : Z := t / msPerDay.

Definition DaysInYear (y : Z) : Z :=
  if negb (y mod 4 =? 0) then 365
  else if negb (y mod 100 =? 0) then 366
  else if negb (y mod 400 =? 0) then 365
  else 366.

Definition DayFromYear (y : Z) : Z :=
  365 * (y - 1970) + (y - 1969) / 4 - (y - 1901) / 100 + (y - 1601) / 400.

(** [YearFromTime(t)] is the largest year whose first day is not after [t].
    An estimate from the mean length of a year is at most one year off. *)
Definition YearFromDay (d : Z) : Z :=
  let y := 1970 + (400 * d) / 146097 in
  if d <? DayFromYear y then y - 1
  else if DayFromYear (y + 1) <=? d then y + 1
  else y.

Definition YearFromTime (t : Z) : Z := YearFromDay (Day t).

Definition InLeapYear (y : Z) : bool := DaysInYear y =? 366.

(** Days of the year before the first of month [m] (0 = January). *)
Definition monthStart (leap : bool) (m : Z) : Z :=
  let l := if leap then 1 else 0 in
  match m with
  | 0 => 0
  | 1 => 31
  | 2 => 59 + l
  | 3 => 90 + l
  | 4 => 120 + l
  | 5 => 151 + l
  | 6 => 181 + l
  | 7 => 212 + l
  | 8 => 243 + l
  | 9 => 273 + l
  | 10 => 304 + l
  | 11 => 334 + l
  | _ => 365 + l
  end.

Definition DayWithinYear (t : Z) : Z := Day t - DayFromYear (YearFromTime t).

Definition MonthFromTime (t : Z) : Z :=
  let leap := InLeapYear (YearFromTime t) in
  let d := DayWithinYear t in
  Z.of_nat
    (List.length
       (filter (fun m => monthStart leap (m + 1) <=? d)
               [0; 1; 2; 3; 4; 5; 6; 7; 8; 9; 10])).

Definition DateFromTime (t : Z) : Z :=
  DayWithinYear t
  - monthStart (InLeapYear (YearFromTime t)) (MonthFromTime t) + 1.

Definition WeekDay (t : Z) : Z := (Day t + 4) mod 7.

(** [MakeDay(year, month, date)] and [MakeDate(day, time)]. *)
Definition MakeDay (year month date : Z) : Z :=
  let ym := year + month / 12 in
  let mn := month mod 12 in
  DayFromYear ym + monthStart (InLeapYear ym) mn + date - 1.

Definition MakeDate (day time : Z) : Z := day * msPerDay + time.

(** [Date.UTC(y, m, d, h, min)] for a four-digit year, used to write
    concrete clock readings. *)
Definition Date_UTC (y m d h mi : Z) : Z :=
  MakeDate (MakeDay y m d) (h * 3600000 + mi * 60000).

Section LocalTime.

(** The host's offset from UTC in milliseconds.  The zone is taken to have
    this one offset at every instant: a host whose offset changes with the
    season is described only between two changes. *)
Variable tz : Z.

Definition LocalTime (t : Z) : Z := t + tz.
Definition UTC (t : Z) : Z := t - tz.

(** [d.getFullYear()], [d.getDay()] *)
Definition getFullYear (t : Z) : Z := YearFromTime (LocalTime t).
Definition getDay (t : Z) : Z := WeekDay (LocalTime t).

(** [new Date(year, month, date)]: local midnight of that day; a year from
    0 to 99 stands for 1900 + year. *)
Definition Date_ymd (year month date : Z) : Z :=
  let yr := if (0 <=? year) && (year <=? 99) then 1900 + year else year in
  UTC (MakeDate (MakeDay yr month date) 0).

End LocalTime.

Fixpoint padDigits (width : nat) (n : Z) : jsstring :=
  match width with
  | O => []
  | S w => padDigits w (n / 10) ++ [Z.to_N (48 + n mod 10)]
  end.

(** [d.toISOString().split("T")[0]] for years 0 to 9999. *)
Definition isoDate (t : Z) : jsstring :=
  padDigits 4 (YearFromTime t) ++ [45%N]
  ++ padDigits 2 (MonthFromTime t + 1) ++ [45%N]
  ++ padDigits 2 (DateFromTime t).

Definition digitsToZ (ds : list N) : Z := Z.of_N (digitsValue 0 ds).

(** The date-only form [YYYY-MM-DD] of the date-time string format, read as
    UTC midnight; [None] stands for an invalid date.  What else
    [new Date(string)] accepts is left to the host: the window selector
    below takes the parser as a parameter, and this one serves for concrete
    inputs. *)
Definition parseDateOnly (s : jsstring) : option Z :=
  match s with
  | [y1; y2; y3; y4; h1; m1; m2; h2; d1; d2] =>
    if forallb isDigit [y1; y2; y3; y4; m1; m2; d1; d2]
       && (h1 =? 45)%N && (h2 =? 45)%N
    then
      let y := digitsToZ [y1; y2; y3; y4] in
      let m := digitsToZ [m1; m2] in
      let d := digitsToZ [d1; d2] in
      if (1 <=? m) && (m <=? 12) && (1 <=? d) && (d <=? 31)
      then Some (MakeDate (MakeDay y (m - 1) d) 0)
      else None
    else None
  | _ => None
  end.

End JSDate.

Import JSDate.

(* ================================================================== *)
(** * The program *)
(* ================================================================== *)

(** What the program throws, by message. *)
Inductive error : Type :=
| InvalidCheckin            (* "Invalid --checkin date (YYYY-MM-DD)." *)
| CheckinNotInFuture        (* "Check-in must be in the future." *)
| CheckinNotThisYear (currentYear : Z)
                            (* "Check-in must be within the current year ..." *)
| CouldNotOpenHotel (city : jsstring)
                            (* "Could not open a hotel result for ..." *)
| HostError (what : string).  (* an error thrown by the browser library *)

Inductive outcome (A : Type) : Type :=
| Returned (a : A)
| Threw (e : error).

Arguments Returned {A} a.
Arguments Threw {A} e.

(** [fmtDate] *)
Definition fmtDate (d : Z) : jsstring := isoDate d.

Section StayWindow.

Variable tz : Z.
Variable Date_parse : jsstring -> option Z.

(** The locals of the auto-pick branch of [withinThisYearFiveNights], each
    as a function of the clock reading [now]. *)
Definition currentYear (now : Z) : Z := getFullYear tz now.

Definition earliest (now : Z) : Z := now + 14 * 86400000.

Definition MON : Z := 1.

Definition daysUntilMon (now : Z) : Z :=
  Z.rem (MON - getDay tz (earliest now) + 7) 7.

(** [inDate] as first assigned: the Monday on or after [earliest]. *)
Definition mondayStart (now : Z) : Z :=
  earliest now + daysUntilMon now * 86400000.

(** The test that guards the December 10 fallback. *)
Definition fallbackTaken (now : Z) : bool :=
  negb (getFullYear tz (mondayStart now) =? currentYear now).

(** [inDate] and [outDate] before the shift. *)
Definition inDate0 (now : Z) : Z :=
  if fallbackTaken now then Date_ymd tz (currentYear now) 11 10
  else mondayStart now.

Definition outDate0 (now : Z) : Z := inDate0 now + 5 * 86400000.

Definition lastDay (now : Z) : Z := Date_ymd tz (currentYear now) 11 31.

(** The test that guards the backward shift. *)
Definition shiftTaken (now : Z) : bool := lastDay now <? outDate0 now.

(** [Math.ceil(a / b)] for integers and [b > 0]; the quotients met here
    are small, so the floating-point division rounds to the same value. *)
Definition ceilDiv (a b : Z) : Z := - ((- a) / b).

Definition shiftDays (now : Z) : Z :=
  ceilDiv (outDate0 now - lastDay now) 86400000.

Definition autoPick (now : Z) : Z * Z :=
  if shiftTaken now
  then (inDate0 now - shiftDays now * 86400000,
        outDate0 now - shiftDays now * 86400000)
  else (inDate0 now, outDate0 now).

(** [withinThisYearFiveNights(checkinStr)], with the reading of the clock
    made an argument.  [checkinStr] is [None] for [undefined]; the guard
    [if (checkinStr)] holds for a non-empty string only. *)
Definition withinThisYearFiveNights (now : Z) (checkinStr : option jsstring)
  : outcome (Z * Z) :=
  match checkinStr with
  | Some (c :: str') =>
    match Date_parse (c :: str') with
    | None => Threw InvalidCheckin
    | Some inDate =>
      let outDate := inDate + 5 * 86400000 in
      if inDate <=? now then Threw CheckinNotInFuture
      else if negb (getFullYear tz inDate =? currentYear now)
      then Threw (CheckinNotThisYear (currentYear now))
      else Returned (inDate, outDate)
    end
  | _ => Returned (autoPick now)
  end.

End StayWindow.

(* ------------------------------------------------------------------ *)
(** ** parseCurrencyPrice *)

Module Price.
Record t : Type := mk { currency : jsstring; value : number }.
End Price.

(** The class [[₹$€£¥]]. *)
Definition isCurrencySymbol (c : N) : bool :=
  ((c =? 8377) || (c =? 36) || (c =? 8364) || (c =? 163) || (c =? 165))%N.

Definition currencyCodes : list jsstring :=
  map js ["USD"; "EUR"; "GBP"; "JPY"; "INR"]%string.

(** Case folding of the [i] flag, as far as it bears on this pattern: a
    small Latin letter is compared as its capital.  A unit outside ASCII is
    never folded to an ASCII letter, and nothing folds to one of the five
    symbols. *)
Definition canonicalize (c : N) : N :=
  if ((97 <=? c) && (c <=? 122))%N then (c - 32)%N else c.

Fixpoint startsWithCI (s code : jsstring) {struct code} : bool :=
  match code, s with
  | [], _ => true
  | _ :: _, [] => false
  | p :: code', c :: s' => (canonicalize c =? p)%N && startsWithCI s' code'
  end.

(** Group 1 at the head of [s]: the matched text and what follows it. *)
Definition currencyAt (s : jsstring) : option (jsstring * jsstring) :=
  match s with
  | [] => None
  | c :: r =>
    if isCurrencySymbol c then Some ([c], r)
    else if existsb (startsWithCI s) currencyCodes
    then Some (firstn 3 s, skipn 3 s)
    else None
  end.

(** The class [[0-9,\.]]. *)
Definition isPriceChar (c : N) : bool :=
  isDigit c || (c =? 44)%N || (c =? 46)%N.

(** One attempt of the pattern at the head of [s], giving groups 1 and 2:
    group 1 is a symbol of the class or one of the five codes, then comes a
    greedy run of white space, and group 2 is a digit followed by a greedy
    run of digits, commas and points.  The alternatives exclude one another,
    and a shorter run of white space is followed by white space, not by a
    digit, so the greedy choices are the only ones that can succeed. *)
Definition matchAt (s : jsstring) : option (jsstring * jsstring) :=
  match currencyAt s with
  | None => None
  | Some (cur, r) =>
    match dropWhile isWhiteSpace r with
    | [] => None
    | d :: r' =>
      if isDigit d then Some (cur, d :: takeWhile isPriceChar r') else None
    end
  end.

(** [text.match(re)]: the attempt at the leftmost position that succeeds. *)
Fixpoint regexMatch (text : jsstring) : option (jsstring * jsstring) :=
  match matchAt text with
  | Some m => Some m
  | None =>
    match text with
    | [] => None
    | _ :: text' => regexMatch text'
    end
  end.

Definition parseCurrencyPrice (text : jsstring) : option Price.t :=
  match regexMatch text with
  | None => None
  | Some (m1, m2) =>
    Some {| Price.currency := m1;
            Price.value := parseFloat (removeCommas m2) |}
  end.

(* ------------------------------------------------------------------ *)
(** ** Provider rows *)

Module Quote.
Record t : Type := mk {
  provider : jsstring;
  price_value : number;
  currency : jsstring;
  url : option jsstring;
  raw_text : jsstring
}.
End Quote.

Definition brands : list jsstring :=
  map js ["Google"; "Booking.com"; "Expedia"; "Agoda"; "Hotels.com";
          "MakeMyTrip"; "Trip.com"; "Priceline"; "Travelocity"; "Cleartrip";
          "Goibibo"; "Easemytrip"]%string.

Definition isEmpty (s : jsstring) : bool :=
  match s with
  | [] => true
  | _ :: _ => false
  end.

(** [s || "Unknown"] *)
Definition orUnknown (s : jsstring) : jsstring :=
  if isEmpty s then js "Unknown" else s.

Definition mentions (text brand : jsstring) : bool :=
  includes (toLowerCase text) (toLowerCase brand).

(** [text.split("\n")[0].trim()], the first value of [providerName]. *)
Definition primaryName (text : jsstring) : jsstring := trim (firstLine text).

(** [!providerName || providerName.length > 60] *)
Definition rejected (name : jsstring) : bool :=
  isEmpty name || (60 <? Z.of_nat (List.length name)).

(** [providerName] after the brand loop: the first brand of the list that
    the text mentions, when there is one. *)
Definition providerName (text : jsstring) : jsstring :=
  let providerName := primaryName text in
  if rejected providerName
  then
    match find (mentions text) brands with
    | Some brand => brand
    | None => providerName
    end
  else providerName.

(** No brand of the list occurs in the text. *)
Definition mentionsNoBrand (text : jsstring) : bool :=
  forallb (fun brand => negb (mentions text brand)) brands.

(** The [provider] field pushed for a row with this text. *)
Definition resolveProvider (text : jsstring) : jsstring :=
  orUnknown (providerName text).

(** A row of the price pane: [innerText] is its text, [None] when reading
    it throws; [href] is the address of its first link, [None] when it has
    none. *)
Record row : Type := mkRow {
  innerText : option jsstring;
  href : option jsstring
}.

(** One turn of the loop: the quote pushed, or [None] after [continue].
    The link lookup takes [row.locator("a[href]").first] as a property where
    the library has a method (the price panel step calls [first()]), so
    [link.count()] is a call of [undefined]: it throws inside the [try], the
    empty [catch] swallows it, and [href] keeps its first value [null]
    whatever the row holds. *)
Definition scrapeRow (r : row) : option Quote.t :=
  match innerText r with
  | None => None
  | Some text =>
    if isEmpty text then None
    else
      match parseCurrencyPrice text with
      | None => None
      | Some price =>
        Some {| Quote.provider := resolveProvider text;
                Quote.price_value := Price.value price;
                Quote.currency := Price.currency price;
                Quote.url := None;
                Quote.raw_text := text |}
      end
  end.

Fixpoint scrapeRows (rows : list row) : list Quote.t :=
  match rows with
  | [] => []
  | r :: rows' =>
    match scrapeRow r with
    | Some q => q :: scrapeRows rows'
    | None => scrapeRows rows'
    end
  end.

(* ------------------------------------------------------------------ *)
(** ** Deduplication, lowest quote and sorting *)

(** A [Map] with string keys: entries in insertion order; [set] on a key
    that is present replaces the value where it stands. *)
Definition Map : Type := list (jsstring * Quote.t).

Fixpoint Map_get (m : Map) (key : jsstring) : option Quote.t :=
  match m with
  | [] => None
  | (k, v) :: m' => if jsstring_eqb k key then Some v else Map_get m' key
  end.

Fixpoint Map_set (m : Map) (key : jsstring) (v : Quote.t) : Map :=
  match m with
  | [] => [(key, v)]
  | (k, x) :: m' =>
    if jsstring_eqb k key then (k, v) :: m' else (k, x) :: Map_set m' key v
  end.

Definition Map_values (m : Map) : list Quote.t := map snd m.

(** [(p.provider || "Unknown").trim()] *)
Definition keyOf (p : Quote.t) : jsstring :=
  trim (orUnknown (Quote.provider p)).

Definition cheaper (p q : Quote.t) : bool :=
  JS.lt (Quote.price_value p) (Quote.price_value q).

(** The body of the loop over [providers]. *)
Definition dedupStep (byProvider : Map) (p : Quote.t) : Map :=
  let key := keyOf p in
  match Map_get byProvider key with
  | None => Map_set byProvider key p
  | Some q => if cheaper p q then Map_set byProvider key p else byProvider
  end.

Definition byProvider (providers : list Quote.t) : Map :=
  fold_left dedupStep providers [].

(** [deduped] before it is sorted. *)
Definition deduped (providers : list Quote.t) : list Quote.t :=
  Map_values (byProvider providers).

(** [deduped.reduce((min, p) => p.price_value < min.price_value ? p : min,
    deduped[0])], or [null]. *)
Definition lowestOf (l : list Quote.t) : option Quote.t :=
  match l with
  | [] => None
  | d0 :: _ =>
    Some (fold_left (fun min p => if cheaper p min then p else min) l d0)
  end.

Definition lowest (providers : list Quote.t) : option Quote.t :=
  lowestOf (deduped providers).

(** The comparator [(a, b) => a.price_value - b.price_value]. *)
Definition byPrice (a b : Quote.t) : number :=
  JS.sub (Quote.price_value a) (Quote.price_value b).

Definition isPositive (x : number) : bool :=
  match x with
  | NaN => false
  | Num q => negb (Qle_bool q 0)
  end.

(** [Array.prototype.sort] is stable: an element moves behind another only
    when the comparator puts it strictly after.  Insertion from the right
    end is the reference stable sort. *)
Fixpoint sortInsert (cmp : Quote.t -> Quote.t -> number) (x : Quote.t)
  (l : list Quote.t) : list Quote.t :=
  match l with
  | [] => [x]
  | y :: l' =>
    if isPositive (cmp x y) then y :: sortInsert cmp x l' else x :: l
  end.

Definition Array_sort (cmp : Quote.t -> Quote.t -> number)
  (l : list Quote.t) : list Quote.t :=
  fold_right (sortInsert cmp) [] l.

(** [all_providers]: [deduped] after [sort]. *)
Definition all_providers (providers : list Quote.t) : list Quote.t :=
  Array_sort byPrice (deduped providers).

(** Lines 227 to 252 as one function of [providers]: the sorted array and
    the lowest quote. *)
Definition aggregate (providers : list Quote.t)
  : list Quote.t * option Quote.t :=
  (all_providers providers, lowest providers).

(* ------------------------------------------------------------------ *)
(** ** The aggregation in the spec's words

    The notions the claims about the aggregation are stated with: groups by
    key, the first minimum of a group, keys in order of first appearance,
    ascending order and stability. *)

(** A quote whose amount is a number, as every parsed quote is. *)
Definition numeric (p : Quote.t) : bool := isNumber (Quote.price_value p).

Definition amount (p : Quote.t) : Q :=
  match Quote.price_value p with
  | Num q => q
  | NaN => 0%Q
  end.

(** The quotes of one provider, in the order they were met. *)
Definition group (key : jsstring) (quotes : list Quote.t) : list Quote.t :=
  filter (fun p => jsstring_eqb (keyOf p) key) quotes.

(** [q] is the first quote of [g] with the least amount: every quote before
    it costs strictly more, no quote after it costs less. *)
Definition isFirstMin (q : Quote.t) (g : list Quote.t) : Prop :=
  exists before after,
    g = before ++ q :: after
    /\ Forall (fun p => cheaper q p = true) before
    /\ Forall (fun p => cheaper p q = false) after.

(** The distinct keys of a list, each at its first appearance. *)
Fixpoint firstSeen (keys : list jsstring) : list jsstring :=
  match keys with
  | [] => []
  | k :: keys' =>
    k :: filter (fun k' => negb (jsstring_eqb k' k)) (firstSeen keys')
  end.

Definition firstSeenKeys (quotes : list Quote.t) : list jsstring :=
  firstSeen (map keyOf quotes).

(** No quote is cheaper than one that stands before it. *)
Definition ascending (l : list Quote.t) : Prop :=
  StronglySorted (fun p q => cheaper q p = false) l.




(** The three quotes of the spec's example. *)
Definition quoteOf (name : string) (price : Z) : Quote.t :=
  {| Quote.provider := js name;
     Quote.price_value := Num (inject_Z price);
     Quote.currency := js "$";
     Quote.url := None;
     Quote.raw_text := js name |}.

(* ------------------------------------------------------------------ *)
(** ** findLowestPrice: the run against the browser *)

(** What the run does to the browser, in order. *)
Inductive event : Type :=
| Launched
| ContextOpened
| PageOpened
| Navigated (city checkin checkout : jsstring)
| ResultOpened
| Closed.

(** How the calls of one run into the browser library resolve.  The
    best-effort steps (cookie banner, filter, sort, price panel) sit in
    [try] blocks with an empty [catch] and leave no mark; the reads of the
    hotel heading and rating leave [None] when their [try] block throws.
    The three pauses [await page.waitForTimeout(...)] between the steps are
    taken to resolve: a run in which one of them rejects is not described. *)
Record world : Type := mkWorld {
  launch_ok : bool;
  newContext_ok : bool;
  newPage_ok : bool;
  goto_ok : bool;
  openResult_ok : bool;
  heading : option jsstring;
  rating : option number;
  rows : option (list row);
  close_ok : bool
}.

(** A computation that may throw and that logs what it did to the browser. *)
Definition M (A : Type) : Type := list event -> outcome A * list event.

Definition ret {A : Type} (a : A) : M A := fun tr => (Returned a, tr).

Definition bind {A B : Type} (m : M A) (k : A -> M B) : M B :=
  fun tr =>
    match m tr with
    | (Returned a, tr') => k a tr'
    | (Threw e, tr') => (Threw e, tr')
    end.

Definition throw {A : Type} (e : error) : M A := fun tr => (Threw e, tr).

Definition liftOutcome {A : Type} (o : outcome A) : M A := fun tr => (o, tr).

(** An awaited call into the library: it takes effect, or it rejects. *)
Definition call (ok : bool) (what : string) (e : event) : M unit :=
  fun tr => if ok then (Returned tt, tr ++ [e]) else (Threw (HostError what), tr).

(** [try { m } catch (e) { h }] *)
Definition tryCatch {A : Type} (m : M A) (h : error -> M A) : M A :=
  fun tr =>
    match m tr with
    | (Returned a, tr') => (Returned a, tr')
    | (Threw e, tr') => h e tr'
    end.

Notation "x <- m ;; k" := (bind m (fun x => k))
  (at level 61, m at next level, right associativity).
Notation "m ;;; k" := (bind m (fun _ => k))
  (at level 61, right associativity).

Record result : Type := mkResult {
  query_city : jsstring;
  checkin : jsstring;
  checkout : jsstring;
  nights : Z;
  hotel_name : jsstring;
  hotel_rating : option number;
  hotel_stars : Z;
  res_lowest : option Quote.t;
  res_all_providers : list Quote.t
}.

Section Run.

Variable tz : Z.
Variable Date_parse : jsstring -> option Z.
Variable now : Z.
Variable w : world.

(** [Math.min((await rows.count()) || 0, 80)] rows are visited. *)
Definition visitedRows (rs : list row) : list row := firstn 80 rs.

Definition findLowestPrice (city : jsstring) (checkinStr : option jsstring)
  : M result :=
  dates <- liftOutcome (withinThisYearFiveNights tz Date_parse now checkinStr) ;;
  let '(dtIn, dtOut) := dates in
  call (launch_ok w) "chromium.launch" Launched ;;;
  call (newContext_ok w) "browser.newContext" ContextOpened ;;;
  call (newPage_ok w) "context.newPage" PageOpened ;;;
  call (goto_ok w) "page.goto" (Navigated city (fmtDate dtIn) (fmtDate dtOut)) ;;;
  tryCatch (call (openResult_ok w) "click" ResultOpened)
           (fun _ =>
              call (close_ok w) "browser.close" Closed ;;;
              throw (CouldNotOpenHotel city)) ;;;
  let hotelName :=
    match heading w with
    | Some h => trim h
    | None => js "Unknown Hotel"
    end in
  rs <- match rows w with
        | Some rs => ret rs
        | None => throw (HostError "rows.count")
        end ;;
  let providers := scrapeRows (visitedRows rs) in
  let lowest := lowest providers in
  call (close_ok w) "browser.close" Closed ;;;
  ret {| query_city := city;
         checkin := fmtDate dtIn;
         checkout := fmtDate dtOut;
         nights := 5;
         hotel_name := hotelName;
         hotel_rating := rating w;
         hotel_stars := 5;
         res_lowest := lowest;
         res_all_providers := all_providers providers |}.

(** One run from an untouched browser. *)
Definition run (city : jsstring) (checkinStr : option jsstring)
  : outcome result * list event :=
  findLowestPrice city checkinStr [].

End Run.

(** The browser is held at the end of a run when it was launched and never
    closed. *)
Definition browserLeftOpen (tr : list event) : bool :=
  existsb (fun e => match e with Launched => true | _ => false end) tr
  && negb (existsb (fun e => match e with Closed => true | _ => false end) tr).

(** Worlds for concrete runs: everything up to the navigation succeeds,
    and the rest is as given. *)
Definition worldWith (goto_ok openResult_ok : bool)
  (rows : option (list row)) : world :=
  mkWorld true true true goto_ok openResult_ok None None rows true.

(** A text of two lines. *)
Definition twoLines (first second : string) : jsstring :=
  js first ++ 10%N :: js second.

Definition sampleRows : list row :=
  [mkRow (Some (twoLines "Expedia" "$1,100 total")) None;
   mkRow None None;
   mkRow (Some (js "no price in this row")) None;
   mkRow (Some (twoLines "Agoda" "from $120")) None;
   mkRow (Some (twoLines "Agoda" "from $150")) None].

Definition quoteOfRow (name second : string) (price : Z) : Quote.t :=
  {| Quote.provider := js name;
     Quote.price_value := Num (inject_Z price);
     Quote.currency := js "$";
     Quote.url := None;
     Quote.raw_text := twoLines name second |}.

(** The errors of the stay-window check, the spec's [InvalidDateError]. *)
Definition isInvalidDate (e : error) : bool :=
  match e with
  | InvalidCheckin => true
  | CheckinNotInFuture => true
  | CheckinNotThisYear _ => true
  | _ => false
  end.

(** A row of 61 letters and a price: the first line is too long and names
    no brand. *)
Definition longRow : jsstring := repeat 120%N 61 ++ js " $100".

(** Every amount of the list is a number. *)
Definition allNumeric (l : list Quote.t) : Prop :=
  Forall (fun p => numeric p = true) l.

(** The [reduce] of [lowestOf] from an arbitrary first value. *)
Definition pick (acc : Quote.t) (l : list Quote.t) : Quote.t :=
  fold_left (fun min p => if cheaper p min then p else min) l acc.

(** What the loop over [providers] maintains: the keys of the map are the
    keys met so far in order of first appearance, and each entry holds the
    first minimum of its group. *)
Definition dedupInv (m : Map) (l : list Quote.t) : Prop :=
  map fst m = firstSeenKeys l
  /\ Forall (fun e => keyOf (snd e) = fst e
                      /\ isFirstMin (snd e) (group (fst e) l)) m.

(* ------------------------------------------------------------------ *)
(** ** Tactics *)

(** Linear arithmetic with division and remainder by constants. *)
Ltac zdiv := Z.to_euclidean_division_equations; lia.

(** Decides the comparisons of a goal one at a time from the bounds at
    hand. *)
Ltac nsettle :=
  repeat match goal with
         | |- context [(?a =? ?b)%N] =>
           first [ replace (a =? b)%N with false
                     by (symmetry; apply N.eqb_neq; lia)
                 | replace (a =? b)%N with true
                     by (symmetry; apply N.eqb_eq; lia) ]
         | |- context [(?a <=? ?b)%N] =>
           first [ replace (a <=? b)%N with false
                     by (symmetry; apply N.leb_gt; lia)
                 | replace (a <=? b)%N with true
                     by (symmetry; apply N.leb_le; lia) ]
         end;
  try reflexivity.

(** Splits on every comparison of code units in sight. *)
Ltac ncases :=
  repeat match goal with
         | |- context [(?a =? ?b)%N] => destruct (N.eqb_spec a b)
         | |- context [(?a <=? ?b)%N] => destruct (N.leb_spec a b)
         | H : context [(?a =? ?b)%N] |- _ => destruct (N.eqb_spec a b)
         | H : context [(?a <=? ?b)%N] |- _ => destruct (N.leb_spec a b)
         end;
  cbn in *; try reflexivity; try discriminate; try lia.

(* ------------------------------------------------------------------ *)
(** ** Notions used to state further properties *)

(** A currency as the pattern can capture it: one of the five symbols, or
    three units that are a code up to ASCII case. *)
Definition recognizedCurrency (cur : jsstring) : bool :=
  match cur with
  | [c] => isCurrencySymbol c
  | [_; _; _] => existsb (startsWithCI cur) currencyCodes
  | _ => false
  end.

(** A unit at which group 1 cannot begin: not a symbol and, up to case, not
    the first letter of a code (U, E, G, J, I). *)
Definition noCurrencyStart (c : N) : bool :=
  negb (isCurrencySymbol c)
  && negb (existsb (fun p => (canonicalize c =? p)%N)
                   [85%N; 69%N; 71%N; 74%N; 73%N]).

Definition isDigitOrComma (c : N) : bool := isDigit c || (c =? 44)%N.

(** The text does not go on with a digit, a comma or a point. *)
Definition endsToken (rest : jsstring) : bool :=
  match rest with
  | [] => true
  | c :: _ => negb (isPriceChar c)
  end.

Definition isClosed (e : event) : bool :=
  match e with
  | Closed => true
  | _ => false
  end.

(* ================================================================== *)
(** * The embedding on concrete values *)
(* ================================================================== *)

Example js_currency_symbols :
  js "₹$€£¥" = [8377%N; 36%N; 8364%N; 163%N; 165%N].
Proof. reflexivity. Qed.

Example trim_both_ends : trim (9%N :: js "  Agoda  " ++ [13%N; 10%N]) = js "Agoda".
Proof. reflexivity. Qed.

Example parseFloat_prefix :
  parseFloat (js "12.5.3") = Num (Qmake 125 10)
  /\ parseFloat (js "  -0012.50x") = Num (Qmake (-1250) 100)
  /\ parseFloat (js "5.") = Num (inject_Z 5)
  /\ parseFloat (js ".5") = Num (Qmake 5 10)
  /\ parseFloat (js ".") = NaN
  /\ parseFloat (js "abc") = NaN.
Proof. repeat split. Qed.

Example fmtDate_mid_december :
  fmtDate (Date_UTC 2025 11 15 10 0) = js "2025-12-15"
  /\ getDay 0 (Date_UTC 2025 11 15 10 0) = 1
  /\ getFullYear 0 (Date_UTC 2025 11 15 10 0) = 2025.
Proof. repeat split; vm_compute; reflexivity. Qed.

Example fmtDate_leap_day :
  fmtDate (Date_UTC 2024 1 29 0 0) = js "2024-02-29"
  /\ fmtDate (Date_UTC 2024 1 29 0 0 + 86400000) = js "2024-03-01"
  /\ fmtDate 0 = js "1970-01-01".
Proof. repeat split; vm_compute; reflexivity. Qed.

Example parseDateOnly_values :
  parseDateOnly (js "2025-11-10") = Some (Date_UTC 2025 10 10 0 0)
  /\ parseDateOnly (js "2025-02-30") = Some (Date_UTC 2025 2 2 0 0)
  /\ parseDateOnly (js "2025-13-01") = None.
Proof. repeat split; vm_compute; reflexivity. Qed.

(** In the host's zone [new Date(y, 11, 31)] is local midnight. *)
Example Date_ymd_local_midnight :
  Date_ymd 19800000 2025 11 31 = Date_UTC 2025 11 30 18 30.
Proof. vm_compute. reflexivity. Qed.

Example autoPick_in_june :
  withinThisYearFiveNights 0 parseDateOnly (Date_UTC 2025 5 1 10 0) None
  = Returned (Date_UTC 2025 5 16 10 0, Date_UTC 2025 5 21 10 0).
Proof. vm_compute. reflexivity. Qed.

Example resolveProvider_first_line :
  resolveProvider (twoLines "Expedia" "Best rate") = js "Expedia"
  /\ resolveProvider (js "random unbranded row") = js "random unbranded row"
  /\ resolveProvider (10%N :: js "deal by MAKEMYTRIP $5") = js "MakeMyTrip".
Proof. repeat split; vm_compute; reflexivity. Qed.

(** Two providers at one amount stand in the order in which the providers
    were first met. *)
Example aggregate_tie :
  aggregate [quoteOf "A" 100; quoteOf "B" 80; quoteOf "A" 80]
  = ([quoteOf "A" 80; quoteOf "B" 80], Some (quoteOf "A" 80)).
Proof. vm_compute. reflexivity. Qed.

(** The row of 61 letters is pushed with its whole first line as provider. *)
Example scrapeRow_long_row :
  option_map Quote.provider (scrapeRow (mkRow (Some longRow) None))
  = Some longRow.
Proof. vm_compute. reflexivity. Qed.

(* ================================================================== *)
(** * The calendar *)
(* ================================================================== *)

Lemma DaysInYear_range (y : Z) : DaysInYear y = 365 \/ DaysInYear y = 366.
Proof.
  unfold DaysInYear.
  destruct (y mod 4 =? 0), (y mod 100 =? 0), (y mod 400 =? 0); simpl; auto.
Qed.

Lemma DayFromYear_succ (y : Z) :
  DayFromYear (y + 1) = DayFromYear y + DaysInYear y.
Proof.
  unfold DayFromYear, DaysInYear.
  assert (H4 : (y + 1 - 1969) / 4
               = (y - 1969) / 4 + (if y mod 4 =? 0 then 1 else 0)).
  { destruct (Z.eqb_spec (y mod 4) 0); zdiv. }
  assert (H100 : (y + 1 - 1901) / 100
                 = (y - 1901) / 100 + (if y mod 100 =? 0 then 1 else 0)).
  { destruct (Z.eqb_spec (y mod 100) 0); zdiv. }
  assert (H400 : (y + 1 - 1601) / 400
                 = (y - 1601) / 400 + (if y mod 400 =? 0 then 1 else 0)).
  { destruct (Z.eqb_spec (y mod 400) 0); zdiv. }
  rewrite H4, H100, H400.
  destruct (Z.eqb_spec (y mod 4) 0), (Z.eqb_spec (y mod 100) 0),
    (Z.eqb_spec (y mod 400) 0); cbn [negb]; try lia; exfalso; zdiv.
Qed.

Lemma DayFromYear_lt (y1 y2 : Z) : y1 < y2 -> DayFromYear y1 < DayFromYear y2.
Proof. unfold DayFromYear. intros H. zdiv. Qed.

Lemma YearFromDay_spec (d : Z) :
  DayFromYear (YearFromDay d) <= d < DayFromYear (YearFromDay d + 1).
Proof.
  unfold YearFromDay.
  set (y := 1970 + 400 * d / 146097).
  assert (Hlo : DayFromYear (y - 1) <= d) by (unfold DayFromYear, y; zdiv).
  assert (Hhi : d < DayFromYear (y + 1 + 1)) by (unfold DayFromYear, y; zdiv).
  destruct (Z.ltb_spec d (DayFromYear y)).
  - replace (y - 1 + 1) with y by lia. lia.
  - destruct (Z.leb_spec (DayFromYear (y + 1)) d); lia.
Qed.

Lemma YearFromDay_unique (y d : Z) :
  DayFromYear y <= d < DayFromYear (y + 1) -> YearFromDay d = y.
Proof.
  intros Hd.
  pose proof (YearFromDay_spec d) as Hs.
  destruct (Z.lt_trichotomy (YearFromDay d) y) as [Hlt | [Heq | Hgt]]; auto.
  - destruct (Z.eq_dec (YearFromDay d + 1) y) as [He | Hne].
    + rewrite He in Hs. lia.
    + pose proof (DayFromYear_lt (YearFromDay d + 1) y). lia.
  - destruct (Z.eq_dec (y + 1) (YearFromDay d)) as [He | Hne].
    + rewrite He in Hd. lia.
    + pose proof (DayFromYear_lt (y + 1) (YearFromDay d)). lia.
Qed.

Lemma YearFromTime_iff (t y : Z) :
  YearFromTime t = y
  <-> DayFromYear y * 86400000 <= t < DayFromYear (y + 1) * 86400000.
Proof.
  unfold YearFromTime, Day, msPerDay. split.
  - intros <-. pose proof (YearFromDay_spec (t / 86400000)). zdiv.
  - intros H. apply YearFromDay_unique. zdiv.
Qed.

Lemma getFullYear_iff (tz t y : Z) :
  getFullYear tz t = y
  <-> DayFromYear y * 86400000 <= t + tz < DayFromYear (y + 1) * 86400000.
Proof. unfold getFullYear, LocalTime. apply YearFromTime_iff. Qed.

(** Adding days to the date argument of the constructor adds as many days
    to its time value. *)
Lemma Date_ymd_plus (tz y m d k : Z) :
  Date_ymd tz y m (d + k) = Date_ymd tz y m d + k * 86400000.
Proof. unfold Date_ymd, UTC, MakeDate, MakeDay, msPerDay. lia. Qed.

(** A day of December counted from the first day of the next year. *)
Lemma Date_ymd_December (tz y d : Z) :
  y < 0 \/ 99 < y ->
  Date_ymd tz y 11 d = (DayFromYear (y + 1) - 32 + d) * 86400000 - tz.
Proof.
  intros Hy. unfold Date_ymd, UTC, MakeDate, MakeDay, msPerDay.
  replace ((0 <=? y) && (y <=? 99)) with false
    by (symmetry; apply andb_false_iff; rewrite Z.leb_gt, Z.leb_gt; lia).
  change (11 / 12) with 0. change (11 mod 12) with 11.
  replace (y + 0) with y by lia.
  rewrite DayFromYear_succ. unfold InLeapYear.
  destruct (DaysInYear_range y) as [E | E]; rewrite E.
  - change (monthStart (365 =? 366) 11) with 334. lia.
  - change (monthStart (366 =? 366) 11) with 335. lia.
Qed.

Lemma ceilDiv_spec (a : Z) :
  (ceilDiv a 86400000 - 1) * 86400000 < a <= ceilDiv a 86400000 * 86400000.
Proof. unfold ceilDiv. zdiv. Qed.

(* ================================================================== *)
(** * The stay window *)
(* ================================================================== *)

Lemma daysUntilMon_range (tz now : Z) : 0 <= daysUntilMon tz now <= 6.
Proof.
  unfold daysUntilMon, MON, getDay, WeekDay.
  generalize (Day (LocalTime tz (earliest now))). intros d. zdiv.
Qed.

Lemma mondayStart_ge_earliest (tz now : Z) :
  now + 14 * 86400000 <= mondayStart tz now.
Proof.
  unfold mondayStart, earliest.
  pose proof (daysUntilMon_range tz now). lia.
Qed.

(** The locals of the auto-pick branch, one equation each. *)
Lemma autoPick_eq (tz now : Z) :
  autoPick tz now
  = if shiftTaken tz now
    then (inDate0 tz now - shiftDays tz now * 86400000,
          outDate0 tz now - shiftDays tz now * 86400000)
    else (inDate0 tz now, outDate0 tz now).
Proof. reflexivity. Qed.

Lemma fst_pair {A B : Type} (a : A) (b : B) : fst (a, b) = a.
Proof. reflexivity. Qed.

Lemma snd_pair {A B : Type} (a : A) (b : B) : snd (a, b) = b.
Proof. reflexivity. Qed.

Lemma autoPick_noshift (tz now : Z) :
  shiftTaken tz now = false ->
  autoPick tz now = (inDate0 tz now, outDate0 tz now).
Proof. intros H. rewrite autoPick_eq, H. reflexivity. Qed.

Lemma outDate0_eq (tz now : Z) :
  outDate0 tz now = inDate0 tz now + 5 * 86400000.
Proof. reflexivity. Qed.

Lemma inDate0_fallback (tz now : Z) :
  fallbackTaken tz now = true ->
  inDate0 tz now = Date_ymd tz (currentYear tz now) 11 10.
Proof. intros H. unfold inDate0. rewrite H. reflexivity. Qed.

Lemma inDate0_monday (tz now : Z) :
  fallbackTaken tz now = false ->
  inDate0 tz now = mondayStart tz now
  /\ getFullYear tz (mondayStart tz now) = currentYear tz now.
Proof.
  intros H. split.
  - unfold inDate0. rewrite H. reflexivity.
  - unfold fallbackTaken in H. apply negb_false_iff in H.
    apply Z.eqb_eq in H. exact H.
Qed.

Lemma fallbackTaken_true (tz now : Z) :
  fallbackTaken tz now = true ->
  getFullYear tz (mondayStart tz now) <> currentYear tz now.
Proof.
  intros H. unfold fallbackTaken in H. apply negb_true_iff in H.
  apply Z.eqb_neq in H. exact H.
Qed.

Lemma shiftTaken_true (tz now : Z) :
  shiftTaken tz now = true <-> lastDay tz now < outDate0 tz now.
Proof. unfold shiftTaken. apply Z.ltb_lt. Qed.

Lemma shiftTaken_false (tz now : Z) :
  shiftTaken tz now = false <-> outDate0 tz now <= lastDay tz now.
Proof. unfold shiftTaken. apply Z.ltb_ge. Qed.

Lemma shiftDays_spec (tz now : Z) :
  (shiftDays tz now - 1) * 86400000
  < outDate0 tz now - lastDay tz now
  <= shiftDays tz now * 86400000.
Proof. unfold shiftDays. apply ceilDiv_spec. Qed.

Lemma lastDay_eq (tz now : Z) :
  lastDay tz now = Date_ymd tz (currentYear tz now) 11 31.
Proof. reflexivity. Qed.

Lemma mondayStart_eq (tz now : Z) :
  mondayStart tz now = now + 14 * 86400000 + daysUntilMon tz now * 86400000.
Proof. reflexivity. Qed.

(** After the December 10 fallback the stay ends on December 15: the shift
    is not applied. *)
Lemma fallback_no_shift (tz now : Z) :
  fallbackTaken tz now = true -> shiftTaken tz now = false.
Proof.
  intros Hf. apply shiftTaken_false.
  rewrite outDate0_eq, (inDate0_fallback _ _ Hf), lastDay_eq.
  pose proof (Date_ymd_plus tz (currentYear tz now) 11 10 21) as H.
  change (10 + 21) with 31 in H. rewrite H. lia.
Qed.

Lemma autoPick_five_nights (tz now : Z) :
  snd (autoPick tz now) = fst (autoPick tz now) + 5 * 86400000.
Proof.
  rewrite autoPick_eq.
  destruct (shiftTaken tz now); cbn [fst snd]; rewrite outDate0_eq; lia.
Qed.

Lemma autoPick_years (tz now : Z) :
  currentYear tz now < 0 \/ 99 < currentYear tz now ->
  getFullYear tz (fst (autoPick tz now)) = currentYear tz now
  /\ getFullYear tz (snd (autoPick tz now)) = currentYear tz now.
Proof.
  intros Hy.
  pose proof (DayFromYear_succ (currentYear tz now)) as Hsucc.
  pose proof (DaysInYear_range (currentYear tz now)) as Hlen.
  pose proof (Date_ymd_December tz _ 31 Hy) as Hlast.
  rewrite <- lastDay_eq in Hlast.
  pose proof (Date_ymd_December tz _ 10 Hy) as Hdec10.
  pose proof (outDate0_eq tz now) as Hout.
  rewrite autoPick_eq.
  destruct (shiftTaken tz now) eqn:Hs; destruct (fallbackTaken tz now) eqn:Hf;
    cbn [fst snd]; rewrite !getFullYear_iff.
  - rewrite (fallback_no_shift _ _ Hf) in Hs. discriminate Hs.
  - pose proof (shiftDays_spec tz now) as Hc.
    apply shiftTaken_true in Hs.
    destruct (inDate0_monday _ _ Hf) as [Hin Hyear].
    apply getFullYear_iff in Hyear. lia.
  - rewrite <- (inDate0_fallback _ _ Hf) in Hdec10. lia.
  - apply shiftTaken_false in Hs.
    destruct (inDate0_monday _ _ Hf) as [Hin Hyear].
    apply getFullYear_iff in Hyear. lia.
Qed.

(** Without fallback and without shift the check-in is the Monday. *)
Lemma autoPick_plain (tz now : Z) :
  fallbackTaken tz now = false -> shiftTaken tz now = false ->
  fst (autoPick tz now) = mondayStart tz now.
Proof.
  intros Hf Hs. rewrite (autoPick_noshift _ _ Hs), fst_pair.
  exact (proj1 (inDate0_monday _ _ Hf)).
Qed.

(** When the fallback is taken the clock already shows December 12 or
    later, so December 10 lies behind it. *)
Lemma fallback_in_past (tz now : Z) :
  currentYear tz now < 0 \/ 99 < currentYear tz now ->
  fallbackTaken tz now = true ->
  fst (autoPick tz now) < now.
Proof.
  intros Hy Hf.
  assert (Hnow : getFullYear tz now = currentYear tz now) by reflexivity.
  apply getFullYear_iff in Hnow.
  pose proof (DayFromYear_succ (currentYear tz now)) as Hsucc.
  pose proof (DaysInYear_range (currentYear tz now)) as Hlen.
  pose proof (daysUntilMon_range tz now) as Hk.
  pose proof (mondayStart_eq tz now) as Hm.
  pose proof (Date_ymd_December tz _ 10 Hy) as Hdec10.
  rewrite <- (inDate0_fallback _ _ Hf) in Hdec10.
  rewrite (autoPick_noshift _ _ (fallback_no_shift _ _ Hf)), fst_pair.
  apply fallbackTaken_true in Hf.
  destruct (Z_lt_le_dec (mondayStart tz now + tz)
              (DayFromYear (currentYear tz now + 1) * 86400000)) as [Hlt | Hge].
  - exfalso. apply Hf. apply getFullYear_iff. lia.
  - lia.
Qed.

(** C2, as stated, fails: on 20 December 2025, 10:00 UTC, the Monday after
    3 January 2026 lies in the next year, the fallback returns 10 December
    2025, and that day is not 14 days after the clock reading. *)
Lemma autoPick_late_december_in_past :
  ~ (exists checkIn checkOut,
        withinThisYearFiveNights 0 parseDateOnly (Date_UTC 2025 11 20 10 0) None
        = Returned (checkIn, checkOut)
        /\ Date_UTC 2025 11 20 10 0 + 14 * 86400000 <= checkIn
        /\ getFullYear 0 checkIn = getFullYear 0 (Date_UTC 2025 11 20 10 0)
        /\ getFullYear 0 checkOut = getFullYear 0 (Date_UTC 2025 11 20 10 0)).
Proof.
  intros (checkIn & checkOut & Hw & Hle & _).
  vm_compute in Hw. injection Hw as <- <-.
  vm_compute in Hle. apply Hle. reflexivity.
Qed.

(** C2 (amended): with no check-in requested, the window returned spans
    exactly five days and both its ends fall within the calendar year of the
    clock reading; the check-in is at least 14 days after the clock reading
    whenever neither the December 10 fallback nor the backward shift is
    applied. *)
Theorem autoPick_window_this_year (tz : Z) (parse : jsstring -> option Z)
  (now : Z) :
  currentYear tz now < 0 \/ 99 < currentYear tz now ->
  exists checkIn checkOut,
    withinThisYearFiveNights tz parse now None = Returned (checkIn, checkOut)
    /\ checkOut = checkIn + 5 * 86400000
    /\ getFullYear tz checkIn = getFullYear tz now
    /\ getFullYear tz checkOut = getFullYear tz now
    /\ (fallbackTaken tz now = false -> shiftTaken tz now = false ->
        now + 14 * 86400000 <= checkIn).
Proof.
  intros Hy.
  exists (fst (autoPick tz now)), (snd (autoPick tz now)).
  destruct (autoPick_years tz now Hy) as [Hin Hout].
  split; [| split; [| split; [| split]]].
  - unfold withinThisYearFiveNights. rewrite <- surjective_pairing. reflexivity.
  - apply autoPick_five_nights.
  - exact Hin.
  - exact Hout.
  - intros Hf Hs. rewrite (autoPick_plain _ _ Hf Hs).
    apply mondayStart_ge_earliest.
Qed.

(** On 1 June 2025, 10:00 UTC, neither fallback nor shift applies. *)
Lemma autoPick_window_this_year_witness :
  99 < currentYear 0 (Date_UTC 2025 5 1 10 0)
  /\ exists checkIn checkOut,
       withinThisYearFiveNights 0 parseDateOnly (Date_UTC 2025 5 1 10 0) None
       = Returned (checkIn, checkOut)
       /\ checkOut = checkIn + 5 * 86400000
       /\ getFullYear 0 checkIn = 2025
       /\ getFullYear 0 checkOut = 2025
       /\ Date_UTC 2025 5 1 10 0 + 14 * 86400000 <= checkIn.
Proof.
  assert (Hy : 99 < currentYear 0 (Date_UTC 2025 5 1 10 0))
    by (vm_compute; reflexivity).
  split; [exact Hy |].
  destruct (autoPick_window_this_year 0 parseDateOnly (Date_UTC 2025 5 1 10 0)
              (or_intror Hy))
    as (checkIn & checkOut & Hw & H5 & Hyi & Hyo & H14).
  exists checkIn, checkOut.
  repeat split; try assumption.
  apply H14; vm_compute; reflexivity.
Defined.

(** C3, as stated, fails: on Monday 15 December 2025, 10:00 UTC, the Monday
    path gives 29 December 2025 (same year, no fallback), the check-out
    would be 3 January 2026, and the shift is applied. *)
Lemma shift_on_monday_path :
  ~ (shiftTaken 0 (Date_UTC 2025 11 15 10 0) = true ->
     fallbackTaken 0 (Date_UTC 2025 11 15 10 0) = true).
Proof.
  intros H. assert (Hs : shiftTaken 0 (Date_UTC 2025 11 15 10 0) = true)
    by (vm_compute; reflexivity).
  specialize (H Hs). clear Hs. vm_compute in H. discriminate H.
Qed.

(** C3 (amended): whenever the backward shift is applied, the check-in came
    from the Monday-preference path and not from the December 10 fallback;
    after the fallback the stay ends on December 15 and is never shifted. *)
Theorem shift_only_on_monday_path (tz now : Z) :
  shiftTaken tz now = true ->
  fallbackTaken tz now = false /\ inDate0 tz now = mondayStart tz now.
Proof.
  intros Hs. destruct (fallbackTaken tz now) eqn:Hf.
  - pose proof (fallback_no_shift _ _ Hf) as Hn. rewrite Hs in Hn.
    exfalso. exact (diff_true_false Hn).
  - split; [reflexivity |]. exact (proj1 (inDate0_monday _ _ Hf)).
Qed.

(** The shift of 15 December 2025 is one of the Monday path. *)
Lemma shift_only_on_monday_path_witness :
  shiftTaken 0 (Date_UTC 2025 11 15 10 0) = true
  /\ fallbackTaken 0 (Date_UTC 2025 11 15 10 0) = false
  /\ inDate0 0 (Date_UTC 2025 11 15 10 0)
     = mondayStart 0 (Date_UTC 2025 11 15 10 0).
Proof.
  assert (Hs : shiftTaken 0 (Date_UTC 2025 11 15 10 0) = true)
    by (vm_compute; reflexivity).
  split; [exact Hs |].
  exact (shift_only_on_monday_path 0 (Date_UTC 2025 11 15 10 0) Hs).
Defined.

(** C4, as stated, fails: an empty [--checkin] value is supplied and is not
    a date, yet the guard [if (checkinStr)] sends it to the auto-pick branch
    and a window is returned. *)
Lemma empty_checkin_is_auto_picked :
  ~ (parseDateOnly (js "") = None ->
     exists e,
       withinThisYearFiveNights 0 parseDateOnly (Date_UTC 2025 5 1 10 0)
         (Some (js ""))
       = Threw e).
Proof.
  intros H. destruct (H eq_refl) as [e He]. discriminate He.
Qed.

(** C4 (amended): for a supplied non-empty check-in string, the selector
    fails with an invalid-date error exactly when the string does not parse
    to a date, or the date is not strictly after the clock reading, or its
    year differs from the year of the clock reading; otherwise it returns
    the date and the date plus 5 days, whatever the year of the latter (29
    December 2025 gives a check-out in 2026).  An empty string is treated
    as no check-in at all: the window is the one picked automatically. *)
Theorem explicit_checkin_window (tz : Z) (parse : jsstring -> option Z)
  (now : Z) (s : jsstring) :
  s <> [] ->
  ((exists e, withinThisYearFiveNights tz parse now (Some s) = Threw e
              /\ isInvalidDate e = true)
   <-> (parse s = None
        \/ exists d, parse s = Some d
                     /\ (d <= now \/ getFullYear tz d <> getFullYear tz now)))
  /\ (forall d, parse s = Some d -> now < d ->
                getFullYear tz d = getFullYear tz now ->
                withinThisYearFiveNights tz parse now (Some s)
                = Returned (d, d + 5 * 86400000))
  /\ (exists checkIn checkOut,
        withinThisYearFiveNights 0 parseDateOnly (Date_UTC 2025 5 1 10 0)
          (Some (js "2025-12-29"))
        = Returned (checkIn, checkOut)
        /\ getFullYear 0 checkOut = 2026)
  /\ withinThisYearFiveNights tz parse now (Some [])
     = withinThisYearFiveNights tz parse now None
  /\ withinThisYearFiveNights tz parse now (Some [])
     = Returned (autoPick tz now).
Proof.
  intros Hs. destruct s as [| c s']; [contradiction |].
  unfold withinThisYearFiveNights, currentYear.
  split; [| split; [| split; [| split; reflexivity]]].
  - destruct (parse (c :: s')) as [d |] eqn:Hp.
    + destruct (Z.leb_spec d now) as [Hle | Hgt].
      * split.
        -- intros _. right. exists d. split; [reflexivity | left; exact Hle].
        -- intros _. exists CheckinNotInFuture. split; reflexivity.
      * destruct (Z.eqb_spec (getFullYear tz d) (getFullYear tz now))
          as [Hy | Hy]; cbn [negb].
        -- split.
           ++ intros (e & He & _). discriminate He.
           ++ intros [Hn | (d' & Hd' & [Hle | Hne])].
              ** discriminate Hn.
              ** injection Hd' as <-. lia.
              ** injection Hd' as <-. contradiction.
        -- split.
           ++ intros _. right. exists d. split; [reflexivity | right; exact Hy].
           ++ intros _. exists (CheckinNotThisYear (getFullYear tz now)).
              split; reflexivity.
    + split.
      * intros _. left. reflexivity.
      * intros _. exists InvalidCheckin. split; reflexivity.
  - intros d Hp Hlt Hy. rewrite Hp.
    destruct (Z.leb_spec d now) as [Hle | _]; [lia |].
    rewrite Hy, Z.eqb_refl. reflexivity.
  - eexists. eexists. split; [vm_compute; reflexivity | vm_compute; reflexivity].
Qed.

(** [--checkin 2025-11-10] asked on 1 June 2025. *)
Lemma explicit_checkin_window_witness :
  js "2025-11-10" <> []
  /\ withinThisYearFiveNights 0 parseDateOnly (Date_UTC 2025 5 1 10 0)
       (Some (js "2025-11-10"))
     = Returned (Date_UTC 2025 10 10 0 0,
                 Date_UTC 2025 10 10 0 0 + 5 * 86400000).
Proof.
  assert (Hs : js "2025-11-10" <> []) by (vm_compute; discriminate).
  split; [exact Hs |].
  apply (proj1 (proj2 (explicit_checkin_window 0 parseDateOnly
                         (Date_UTC 2025 5 1 10 0) (js "2025-11-10") Hs))).
  - vm_compute; reflexivity.
  - vm_compute; reflexivity.
  - vm_compute; reflexivity.
Defined.

(* ================================================================== *)
(** * Price parsing *)
(* ================================================================== *)

Lemma isDigit_range (d : N) : isDigit d = true -> (48 <= d <= 57)%N.
Proof. unfold isDigit. intros H. ncases. Qed.

Lemma digit_not_space (d : N) : isDigit d = true -> isWhiteSpace d = false.
Proof.
  intros H. apply isDigit_range in H. unfold isWhiteSpace. nsettle.
Qed.

Lemma digit_is_priceChar (d : N) : isDigit d = true -> isPriceChar d = true.
Proof. intros H. unfold isPriceChar. rewrite H. reflexivity. Qed.

Lemma takeWhile_app {A : Type} (f : A -> bool) (a r : list A) :
  forallb f a = true -> takeWhile f (a ++ r) = a ++ takeWhile f r.
Proof.
  induction a as [| x a IH]; cbn; intros H; [reflexivity |].
  apply andb_true_iff in H. destruct H as [Hx Ha].
  rewrite Hx, (IH Ha). reflexivity.
Qed.

Lemma dropWhile_app {A : Type} (f : A -> bool) (a r : list A) :
  forallb f a = true -> dropWhile f (a ++ r) = dropWhile f r.
Proof.
  induction a as [| x a IH]; cbn; intros H; [reflexivity |].
  apply andb_true_iff in H. destruct H as [Hx Ha].
  rewrite Hx. exact (IH Ha).
Qed.

Lemma takeWhile_all {A : Type} (f : A -> bool) (l : list A) :
  forallb f (takeWhile f l) = true.
Proof.
  induction l as [| x l IH]; cbn; [reflexivity |].
  destruct (f x) eqn:Hx; cbn; [rewrite Hx; exact IH | reflexivity].
Qed.

Lemma removeCommas_digits (a : jsstring) :
  forallb isDigit a = true -> removeCommas a = a.
Proof.
  unfold removeCommas.
  induction a as [| x a IH]; cbn [forallb filter]; intros H; [reflexivity |].
  apply andb_true_iff in H. destruct H as [Hx Ha].
  apply isDigit_range in Hx.
  destruct (N.eqb_spec x 44); [lia |]. cbn [negb]. rewrite (IH Ha).
  reflexivity.
Qed.

Lemma removeCommas_app (a b : jsstring) :
  removeCommas (a ++ b) = removeCommas a ++ removeCommas b.
Proof. unfold removeCommas. apply filter_app. Qed.

(** Group 2 of a match starts with a digit and holds digits, commas and
    points only. *)
Lemma matchAt_group2 (s m1 m2 : jsstring) :
  matchAt s = Some (m1, m2) ->
  exists d t, m2 = d :: t /\ isDigit d = true /\ forallb isPriceChar t = true.
Proof.
  unfold matchAt. destruct (currencyAt s) as [[cur r] |]; [| discriminate].
  destruct (dropWhile isWhiteSpace r) as [| d r']; [discriminate |].
  destruct (isDigit d) eqn:Hd; [| discriminate].
  intros H. injection H as <- <-. exists d, (takeWhile isPriceChar r').
  split; [reflexivity | split; [exact Hd | apply takeWhile_all]].
Qed.

Lemma regexMatch_group2 (text m1 m2 : jsstring) :
  regexMatch text = Some (m1, m2) ->
  exists d t, m2 = d :: t /\ isDigit d = true /\ forallb isPriceChar t = true.
Proof.
  induction text as [| c text IH]; cbn [regexMatch].
  - destruct (matchAt []) as [[a b] |] eqn:Hm; [| discriminate].
    intros H. injection H as <- <-. exact (matchAt_group2 _ _ _ Hm).
  - destruct (matchAt (c :: text)) as [[a b] |] eqn:Hm; [| exact IH].
    intros H. injection H as <- <-. exact (matchAt_group2 _ _ _ Hm).
Qed.

(** [parseFloat] of a string that starts with a digit is a number that is
    not negative. *)
Lemma parseFloat_digit_first (d : N) (t : jsstring) :
  isDigit d = true -> exists q, parseFloat (d :: t) = Num q /\ (0 <= q)%Q.
Proof.
  intros Hd. pose proof (isDigit_range d Hd) as Hr.
  unfold parseFloat, trimStart. cbn [dropWhile].
  rewrite (digit_not_space d Hd).
  destruct (N.eqb_spec d 45); [lia |]. destruct (N.eqb_spec d 43); [lia |].
  unfold decimalPrefix. cbn [takeWhile]. rewrite Hd. cbn [app].
  eexists. split; [reflexivity |].
  unfold Qle. cbn [Qnum Qden]. lia.
Qed.

Lemma forallb_digits_priceChars (a : jsstring) :
  forallb isDigit a = true -> forallb isPriceChar a = true.
Proof.
  induction a as [| x a IH]; cbn [forallb]; intros H; [reflexivity |].
  apply andb_true_iff in H. destruct H as [Hx Ha].
  rewrite (digit_is_priceChar x Hx), (IH Ha). reflexivity.
Qed.

(** The digits of a token are read up to its second point. *)
Lemma parseFloat_two_points (d : N) (a b r : jsstring) :
  isDigit d = true -> forallb isDigit a = true -> forallb isDigit b = true ->
  parseFloat ((d :: a) ++ 46%N :: b ++ 46%N :: r)
  = Num (Qmake (Z.of_N (digitsValue 0 ((d :: a) ++ b)))
               (pow10 (List.length b))).
Proof.
  intros Hd Ha Hb. pose proof (isDigit_range d Hd) as Hr.
  assert (Hda : forallb isDigit (d :: a) = true)
    by (cbn [forallb]; rewrite Hd, Ha; reflexivity).
  unfold parseFloat, trimStart.
  change ((d :: a) ++ 46%N :: b ++ 46%N :: r)
    with (d :: (a ++ 46%N :: b ++ 46%N :: r)).
  cbn [dropWhile]. rewrite (digit_not_space d Hd).
  destruct (N.eqb_spec d 45); [lia |]. destruct (N.eqb_spec d 43); [lia |].
  change (d :: a ++ 46%N :: b ++ 46%N :: r)
    with ((d :: a) ++ 46%N :: b ++ 46%N :: r).
  unfold decimalPrefix.
  rewrite (takeWhile_app isDigit _ _ Hda), (dropWhile_app isDigit _ _ Hda).
  change (takeWhile isDigit (46%N :: b ++ 46%N :: r)) with (@nil N).
  change (dropWhile isDigit (46%N :: b ++ 46%N :: r))
    with (46%N :: b ++ 46%N :: r).
  change (46 =? 46)%N with true. cbv iota.
  rewrite (takeWhile_app isDigit _ _ Hb).
  change (takeWhile isDigit (46%N :: r)) with (@nil N).
  rewrite !app_nil_r. reflexivity.
Qed.

Lemma parseCurrencyPrice_number (text : jsstring) :
  parseCurrencyPrice text = None
  \/ exists c q, parseCurrencyPrice text
                 = Some {| Price.currency := c; Price.value := Num q |}
                 /\ (0 <= q)%Q.
Proof.
  unfold parseCurrencyPrice.
  destruct (regexMatch text) as [[m1 m2] |] eqn:Hm; [right | left; reflexivity].
  destruct (regexMatch_group2 _ _ _ Hm) as (d & t & -> & Hd & Ht).
  assert (Hrc : removeCommas (d :: t) = d :: removeCommas t).
  { unfold removeCommas. cbn [filter]. apply isDigit_range in Hd.
    destruct (N.eqb_spec d 44); [lia | reflexivity]. }
  rewrite Hrc.
  destruct (parseFloat_digit_first d (removeCommas t) Hd) as (q & Hq & Hpos).
  exists m1, q. rewrite Hq. split; [reflexivity | exact Hpos].
Qed.

Lemma parseCurrencyPrice_two_points (a b rest : jsstring) :
  a <> [] -> forallb isDigit a = true -> forallb isDigit b = true ->
  parseCurrencyPrice (js "$" ++ a ++ js "." ++ b ++ js "." ++ rest)
  = Some {| Price.currency := js "$";
            Price.value := Num (Qmake (Z.of_N (digitsValue 0 (a ++ b)))
                                      (pow10 (List.length b))) |}.
Proof.
  intros Hne Ha Hb. destruct a as [| d a]; [contradiction |].
  cbn [forallb] in Ha. apply andb_true_iff in Ha. destruct Ha as [Hd Ha].
  change (js "$") with [36%N]. change (js ".") with [46%N].
  cbn [app]. unfold parseCurrencyPrice. cbn [regexMatch].
  unfold matchAt.
  change (currencyAt (36%N :: d :: a ++ 46%N :: b ++ 46%N :: rest))
    with (Some ([36%N], d :: a ++ 46%N :: b ++ 46%N :: rest)).
  cbn [dropWhile]. rewrite (digit_not_space d Hd), Hd.
  rewrite (takeWhile_app isPriceChar a _ (forallb_digits_priceChars a Ha)).
  change (takeWhile isPriceChar (46%N :: b ++ 46%N :: rest))
    with (46%N :: takeWhile isPriceChar (b ++ 46%N :: rest)).
  rewrite (takeWhile_app isPriceChar b _ (forallb_digits_priceChars b Hb)).
  change (takeWhile isPriceChar (46%N :: rest))
    with (46%N :: takeWhile isPriceChar rest).
  f_equal. f_equal.
  change (d :: a ++ 46%N :: b ++ 46%N :: takeWhile isPriceChar rest)
    with ((d :: a) ++ [46%N] ++ b ++ [46%N] ++ takeWhile isPriceChar rest).
  rewrite !removeCommas_app.
  rewrite (removeCommas_digits b Hb).
  rewrite (removeCommas_digits (d :: a))
    by (cbn [forallb]; rewrite Hd, Ha; reflexivity).
  change (removeCommas [46%N]) with [46%N].
  exact (parseFloat_two_points d a b _ Hd Ha Hb).
Qed.

(** C5, as stated, fails: a token with two decimal points is a match and
    yields a value. *)
Lemma two_points_is_a_match : ~ (parseCurrencyPrice (js "$1.5.3") = None).
Proof. vm_compute. discriminate. Qed.

(** C5 (amended): for every input string, parsing the price returns either
    nothing or a currency with an amount that is a number and not negative
    (there is no error outcome and no NaN); a numeric token with more than
    one decimal point is not a no-match: its amount is read from the digits
    up to the second point. *)
Theorem parseCurrencyPrice_never_fails :
  (forall text,
      parseCurrencyPrice text = None
      \/ exists c q, parseCurrencyPrice text
                     = Some {| Price.currency := c; Price.value := Num q |}
                     /\ (0 <= q)%Q)
  /\ (forall a b rest,
         a <> [] -> forallb isDigit a = true -> forallb isDigit b = true ->
         parseCurrencyPrice (js "$" ++ a ++ js "." ++ b ++ js "." ++ rest)
         = Some {| Price.currency := js "$";
                   Price.value :=
                     Num (Qmake (Z.of_N (digitsValue 0 (a ++ b)))
                                (pow10 (List.length b))) |}).
Proof.
  split.
  - exact parseCurrencyPrice_number.
  - exact parseCurrencyPrice_two_points.
Qed.

(** The token [1.5.3] is read as 1.5. *)
Lemma parseCurrencyPrice_never_fails_witness :
  js "1" <> [] /\ forallb isDigit (js "1") = true
  /\ forallb isDigit (js "5") = true
  /\ parseCurrencyPrice (js "$1.5.3")
     = Some {| Price.currency := js "$"; Price.value := Num (Qmake 15 10) |}.
Proof.
  assert (H1 : js "1" <> []) by (vm_compute; discriminate).
  assert (H2 : forallb isDigit (js "1") = true) by (vm_compute; reflexivity).
  assert (H3 : forallb isDigit (js "5") = true) by (vm_compute; reflexivity).
  split; [exact H1 | split; [exact H2 | split; [exact H3 |]]].
  exact (proj2 parseCurrencyPrice_never_fails (js "1") (js "5") (js "3")
           H1 H2 H3).
Defined.

(** C9: the price in ["Booking.com ₹12,345 per night"] is read as currency
    ["₹"] and amount 12345, the thousands separator removed; a text without
    a price gives nothing. *)
Theorem parseCurrencyPrice_examples :
  parseCurrencyPrice (js "Booking.com ₹12,345 per night")
  = Some {| Price.currency := js "₹"; Price.value := Num (inject_Z 12345) |}
  /\ parseCurrencyPrice (js "no price here") = None.
Proof. split; vm_compute; reflexivity. Qed.

Lemma startsWithCI_app (s code rest : jsstring) :
  startsWithCI s code = true -> startsWithCI (s ++ rest) code = true.
Proof.
  revert s. induction code as [| p code IH]; intros s H; [reflexivity |].
  destruct s as [| c s]; [discriminate H |].
  cbn [startsWithCI app] in *. apply andb_true_iff in H.
  destruct H as [Hc Hs]. rewrite Hc, (IH _ Hs). reflexivity.
Qed.

Lemma existsb_startsWithCI_app (s rest : jsstring) (codes : list jsstring) :
  existsb (startsWithCI s) codes = true ->
  existsb (startsWithCI (s ++ rest)) codes = true.
Proof.
  induction codes as [| code codes IH]; cbn [existsb]; intros H;
    [discriminate H |].
  apply orb_true_iff in H. apply orb_true_iff. destruct H as [H | H].
  - left. apply startsWithCI_app. exact H.
  - right. exact (IH H).
Qed.

(** A text that matches a code in either case does not begin with one of
    the five symbols. *)
Lemma code_not_symbol (c : N) (s : jsstring) :
  existsb (startsWithCI (c :: s)) currencyCodes = true ->
  isCurrencySymbol c = false.
Proof.
  intros H. destruct (isCurrencySymbol c) eqn:Hc; [| reflexivity].
  unfold isCurrencySymbol in Hc.
  assert (Hv : c = 8377%N \/ c = 36%N \/ c = 8364%N \/ c = 163%N \/ c = 165%N).
  { repeat (apply orb_true_iff in Hc; destruct Hc as [Hc | Hc]);
      apply N.eqb_eq in Hc; auto 6. }
  destruct Hv as [-> | [-> | [-> | [-> | ->]]]]; vm_compute in H;
    discriminate H.
Qed.

(** C10: a three-letter code is matched in either case and returned as it
    stands in the text: for [s] equal to a code up to case, followed by
    white space and a digit, the currency of the result is [s] itself. *)
Theorem currency_code_verbatim (s ws rest : jsstring) (d : N) :
  List.length s = 3%nat ->
  existsb (startsWithCI s) currencyCodes = true ->
  forallb isWhiteSpace ws = true ->
  isDigit d = true ->
  exists v,
    parseCurrencyPrice (s ++ ws ++ d :: rest)
    = Some {| Price.currency := s; Price.value := v |}.
Proof.
  intros Hlen Hcode Hws Hd.
  destruct s as [| c1 [| c2 [| c3 [| c4 s]]]]; try discriminate Hlen.
  pose proof (code_not_symbol c1 [c2; c3] Hcode) as Hsym.
  pose proof (existsb_startsWithCI_app [c1; c2; c3] (ws ++ d :: rest) _ Hcode)
    as Hpre.
  unfold parseCurrencyPrice.
  change ([c1; c2; c3] ++ ws ++ d :: rest)
    with (c1 :: c2 :: c3 :: ws ++ d :: rest) in *.
  cbn [regexMatch]. unfold matchAt, currencyAt.
  rewrite Hsym, Hpre. cbn [firstn skipn].
  rewrite (dropWhile_app isWhiteSpace ws _ Hws).
  cbn [dropWhile]. rewrite (digit_not_space d Hd), Hd.
  eexists. reflexivity.
Qed.

(** ["usd 100"] gives the currency ["usd"], not ["USD"]. *)
Lemma currency_code_verbatim_witness :
  List.length (js "usd") = 3%nat
  /\ existsb (startsWithCI (js "usd")) currencyCodes = true
  /\ forallb isWhiteSpace (js " ") = true
  /\ isDigit 49 = true
  /\ js "usd" <> js "USD"
  /\ parseCurrencyPrice (js "usd 100") <> None
  /\ exists v,
       parseCurrencyPrice (js "usd 100")
       = Some {| Price.currency := js "usd"; Price.value := v |}.
Proof.
  assert (H1 : List.length (js "usd") = 3%nat) by reflexivity.
  assert (H2 : existsb (startsWithCI (js "usd")) currencyCodes = true)
    by (vm_compute; reflexivity).
  assert (H3 : forallb isWhiteSpace (js " ") = true)
    by (vm_compute; reflexivity).
  assert (H4 : isDigit 49 = true) by reflexivity.
  repeat (split; [assumption |]).
  split; [vm_compute; discriminate |].
  split; [vm_compute; discriminate |].
  exact (currency_code_verbatim (js "usd") (js " ") (js "00") 49 H1 H2 H3 H4).
Defined.

(* ================================================================== *)
(** * Provider names *)
(* ================================================================== *)

Lemma find_none_forallb {A : Type} (f : A -> bool) (l : list A) :
  forallb (fun x => negb (f x)) l = true -> find f l = None.
Proof.
  induction l as [| x l IH]; cbn [forallb find]; intros H; [reflexivity |].
  apply andb_true_iff in H. destruct H as [Hx Hl].
  apply negb_true_iff in Hx. rewrite Hx. exact (IH Hl).
Qed.

(** What the code does with a rejected first line when the text names no
    brand: the brand loop leaves [providerName] as it stands, and
    [providerName || "Unknown"] replaces it only when it is empty. *)
Lemma resolveProvider_rejected_unbranded (text : jsstring) :
  rejected (primaryName text) = true ->
  mentionsNoBrand text = true ->
  resolveProvider text
  = if isEmpty (primaryName text) then js "Unknown" else primaryName text.
Proof.
  intros Hrej Hnone. unfold resolveProvider, providerName.
  rewrite Hrej, (find_none_forallb (mentions text) brands Hnone).
  unfold orUnknown. reflexivity.
Qed.

(** C6 fails on the code: the first line of [longRow] has 66 characters, so
    the guard [!providerName || providerName.length > 60] rejects it, and
    the text names no brand of the list; the claim gives ["Unknown"], yet
    the name is never reset and the rejected line itself is pushed as the
    provider of the row.  The other rejected case, an empty first line
    without a brand, does end as ["Unknown"]. *)
Theorem rejected_long_line_is_pushed :
  primaryName longRow = longRow
  /\ List.length (primaryName longRow) = 66%nat
  /\ rejected (primaryName longRow) = true
  /\ mentionsNoBrand longRow = true
  /\ resolveProvider longRow = longRow
  /\ resolveProvider longRow <> js "Unknown"
  /\ option_map Quote.provider (scrapeRow (mkRow (Some longRow) None))
     = Some longRow
  /\ rejected (primaryName (10%N :: js "from $100")) = true
  /\ mentionsNoBrand (10%N :: js "from $100") = true
  /\ resolveProvider (10%N :: js "from $100") = js "Unknown".
Proof.
  repeat split; try (vm_compute; reflexivity).
  intros H. vm_compute in H. discriminate H.
Qed.

(* ================================================================== *)
(** * Aggregation *)
(* ================================================================== *)

(** ** The order on amounts *)

Lemma cheaper_spec (p q : Quote.t) :
  numeric p = true -> numeric q = true ->
  reflect (amount p < amount q)%Q (cheaper p q).
Proof.
  unfold numeric, cheaper, amount, JS.lt.
  destruct (Quote.price_value p) as [| x]; [discriminate |].
  destruct (Quote.price_value q) as [| y]; [discriminate |].
  intros _ _. destruct (Qle_bool y x) eqn:E; cbn [negb]; constructor.
  - apply Qle_bool_iff in E. lra.
  - assert (~ (y <= x)%Q) by (rewrite <- Qle_bool_iff; congruence). lra.
Qed.

Lemma byPrice_positive (p q : Quote.t) :
  numeric p = true -> numeric q = true ->
  isPositive (byPrice p q) = cheaper q p.
Proof.
  intros Hp Hq. destruct (cheaper_spec q p Hq Hp) as [H | H];
    revert H; unfold numeric, amount, byPrice, JS.sub, isPositive in *;
    destruct (Quote.price_value p) as [| x]; try discriminate;
    destruct (Quote.price_value q) as [| y]; try discriminate; intros H.
  - destruct (Qle_bool (x - y) 0) eqn:E; [| reflexivity].
    apply Qle_bool_iff in E. lra.
  - destruct (Qle_bool (x - y) 0) eqn:E; [reflexivity |].
    assert (~ (x - y <= 0)%Q) by (rewrite <- Qle_bool_iff; congruence). lra.
Qed.

(** Settles a goal about [cheaper] on numeric quotes by the order of their
    amounts. *)
Ltac order_cases :=
  repeat match goal with
         | Hp : numeric ?p = true, Hq : numeric ?q = true
           |- context [cheaper ?p ?q] =>
           destruct (cheaper_spec p q Hp Hq)
         | Hp : numeric ?p = true, Hq : numeric ?q = true,
           H : context [cheaper ?p ?q] |- _ =>
           destruct (cheaper_spec p q Hp Hq)
         end;
  try reflexivity; try discriminate; try (exfalso; lra).

Lemma cheaper_irrefl (p : Quote.t) : cheaper p p = false.
Proof.
  unfold cheaper, JS.lt. destruct (Quote.price_value p) as [| x];
    [reflexivity |].
  assert (E : Qle_bool x x = true) by (apply Qle_bool_iff; lra).
  rewrite E. reflexivity.
Qed.

Lemma cheaper_trans (p q r : Quote.t) :
  numeric p = true -> numeric q = true -> numeric r = true ->
  cheaper p q = true -> cheaper q r = true -> cheaper p r = true.
Proof. intros Hp Hq Hr H1 H2. order_cases. Qed.

Lemma cheaper_le_trans (p q r : Quote.t) :
  numeric p = true -> numeric q = true -> numeric r = true ->
  cheaper p q = true -> cheaper r q = false -> cheaper p r = true.
Proof. intros Hp Hq Hr H1 H2. order_cases. Qed.

Lemma not_cheaper_trans (p q r : Quote.t) :
  numeric p = true -> numeric q = true -> numeric r = true ->
  cheaper q p = false -> cheaper r q = false -> cheaper r p = false.
Proof. intros Hp Hq Hr H1 H2. order_cases. Qed.

(** ** The sort *)

Lemma sortInsert_perm (x : Quote.t) (l : list Quote.t) :
  Permutation (x :: l) (sortInsert byPrice x l).
Proof.
  induction l as [| y l IH]; cbn [sortInsert]; [reflexivity |].
  destruct (isPositive (byPrice x y)); [| reflexivity].
  rewrite perm_swap. apply perm_skip. exact IH.
Qed.

Lemma Array_sort_perm (l : list Quote.t) :
  Permutation l (Array_sort byPrice l).
Proof.
  induction l as [| x l IH]; cbn [Array_sort fold_right]; [reflexivity |].
  rewrite <- sortInsert_perm. apply perm_skip. exact IH.
Qed.

Lemma allNumeric_perm (l l' : list Quote.t) :
  Permutation l l' -> allNumeric l -> allNumeric l'.
Proof. intros Hp H. unfold allNumeric. rewrite <- Hp. exact H. Qed.

Lemma Array_sort_numeric (l : list Quote.t) :
  allNumeric l -> allNumeric (Array_sort byPrice l).
Proof. apply allNumeric_perm, Array_sort_perm. Qed.

Lemma sortInsert_ascending (x : Quote.t) (l : list Quote.t) :
  numeric x = true -> allNumeric l -> ascending l ->
  ascending (sortInsert byPrice x l).
Proof.
  intros Hx Hl Hs. induction Hs as [| y l Hs IH Hy]; cbn [sortInsert].
  - constructor; constructor.
  - inversion Hl as [| ? ? Hny Hnl]; subst.
    rewrite (byPrice_positive x y Hx Hny).
    destruct (cheaper y x) eqn:Hyx.
    + constructor; [exact (IH Hnl) |].
      rewrite <- sortInsert_perm. constructor; [| exact Hy].
      order_cases.
    + constructor; [constructor; assumption |].
      constructor; [exact Hyx |].
      rewrite Forall_forall in *. intros q Hq.
      exact (not_cheaper_trans x y q Hx Hny (Hnl q Hq) Hyx (Hy q Hq)).
Qed.

Lemma Array_sort_ascending (l : list Quote.t) :
  allNumeric l -> ascending (Array_sort byPrice l).
Proof.
  induction l as [| x l IH]; cbn [Array_sort fold_right]; intros Hl.
  - constructor.
  - inversion Hl; subst. apply sortInsert_ascending; auto.
    apply Array_sort_numeric; assumption.
Qed.



(** An ascending list is left as it is. *)
Lemma Array_sort_sorted (l : list Quote.t) :
  allNumeric l -> ascending l -> Array_sort byPrice l = l.
Proof.
  intros Hl Hs. induction Hs as [| x l Hs IH Hx];
    cbn [Array_sort fold_right]; [reflexivity |].
  inversion Hl as [| ? ? Hnx Hnl]; subst.
  fold (Array_sort byPrice l). rewrite (IH Hnl).
  destruct l as [| y l]; cbn [sortInsert]; [reflexivity |].
  inversion Hnl; subst. inversion Hx; subst.
  rewrite (byPrice_positive x y) by assumption.
  replace (cheaper y x) with false by (symmetry; assumption). reflexivity.
Qed.

(** ** The lowest quote *)

Lemma pick_head_of_sort (l : list Quote.t) :
  allNumeric l ->
  forall acc, numeric acc = true ->
  pick acc l
  = match Array_sort byPrice l with
    | [] => acc
    | h :: _ => if cheaper h acc then h else acc
    end.
Proof.
  intros Hl. induction Hl as [| x l Hx Hl IH]; intros acc Hacc;
    [reflexivity |].
  unfold pick. cbn [fold_left Array_sort fold_right].
  fold (Array_sort byPrice l).
  fold (pick (if cheaper x acc then x else acc) l).
  assert (Hacc' : numeric (if cheaper x acc then x else acc) = true)
    by (destruct (cheaper x acc); assumption).
  rewrite (IH _ Hacc').
  pose proof (Array_sort_numeric l Hl) as Hsn.
  destruct (Array_sort byPrice l) as [| h t]; cbn [sortInsert];
    [reflexivity |].
  inversion Hsn as [| ? ? Hh _]; subst.
  rewrite (byPrice_positive x h Hx Hh).
  destruct (cheaper x acc) eqn:E1, (cheaper h x) eqn:E2;
    try rewrite E1; try rewrite E2; revert E1 E2; order_cases.
Qed.

Lemma lowestOf_head_of_sort (l : list Quote.t) :
  allNumeric l -> lowestOf l = hd_error (Array_sort byPrice l).
Proof.
  intros Hl. destruct l as [| d0 l]; [reflexivity |].
  inversion Hl as [| ? ? Hd Hl']; subst.
  unfold lowestOf. fold (pick d0 (d0 :: l)).
  unfold pick. cbn [fold_left]. rewrite cheaper_irrefl. fold (pick d0 l).
  rewrite (pick_head_of_sort l Hl' d0 Hd).
  cbn [Array_sort fold_right]. fold (Array_sort byPrice l).
  pose proof (Array_sort_numeric l Hl') as Hsn.
  destruct (Array_sort byPrice l) as [| h t]; cbn [sortInsert hd_error];
    [reflexivity |].
  inversion Hsn as [| ? ? Hh _]; subst.
  rewrite (byPrice_positive d0 h Hd Hh).
  destruct (cheaper h d0); reflexivity.
Qed.

(** ** The map by provider *)

Lemma jsstring_eqb_spec (a b : jsstring) : reflect (a = b) (jsstring_eqb a b).
Proof.
  unfold jsstring_eqb. destruct (list_eq_dec N.eq_dec a b); constructor;
    assumption.
Qed.

Lemma jsstring_eqb_refl (a : jsstring) : jsstring_eqb a a = true.
Proof. destruct (jsstring_eqb_spec a a); congruence. Qed.

Lemma Map_get_None (m : Map) (key : jsstring) :
  Map_get m key = None <-> ~ In key (map fst m).
Proof.
  induction m as [| [k v] m IH]; cbn [Map_get map fst In].
  - split; [intros _ [] | reflexivity].
  - destruct (jsstring_eqb_spec k key) as [-> | Hne].
    + split; [discriminate | intros H; exfalso; apply H; left; reflexivity].
    + rewrite IH. split; [intros H [E | Hin]; auto | intros H Hin; auto].
Qed.

Lemma Map_set_absent (m : Map) (key : jsstring) (v : Quote.t) :
  Map_get m key = None -> Map_set m key v = m ++ [(key, v)].
Proof.
  induction m as [| [k x] m IH]; cbn [Map_get Map_set app]; [reflexivity |].
  destruct (jsstring_eqb k key); [discriminate |].
  intros H. rewrite (IH H). reflexivity.
Qed.

(** [set] on a key that is present replaces the value of its entry and
    moves nothing. *)
Lemma Map_set_present (m : Map) (key : jsstring) (q v : Quote.t) :
  Map_get m key = Some q ->
  exists m1 m2,
    m = m1 ++ (key, q) :: m2 /\ Map_set m key v = m1 ++ (key, v) :: m2.
Proof.
  induction m as [| [k x] m IH]; cbn [Map_get Map_set]; [discriminate |].
  destruct (jsstring_eqb_spec k key) as [-> | Hne].
  - intros H. injection H as ->. exists [], m. split; reflexivity.
  - intros H. destruct (IH H) as (m1 & m2 & -> & ->).
    exists ((k, x) :: m1), m2. split; reflexivity.
Qed.

Lemma In_firstSeen (k : jsstring) (keys : list jsstring) :
  In k (firstSeen keys) <-> In k keys.
Proof.
  induction keys as [| a keys IH]; cbn [firstSeen In]; [reflexivity |].
  rewrite filter_In, IH.
  destruct (jsstring_eqb_spec k a) as [-> | Hne]; cbn [negb].
  - split; [intros _ | intros _]; left; reflexivity.
  - split.
    + intros [E | [Hin _]]; [left; exact E | right; exact Hin].
    + intros [E | Hin]; [left; exact E | right; split; [exact Hin | reflexivity]].
Qed.

Lemma NoDup_firstSeen (keys : list jsstring) : NoDup (firstSeen keys).
Proof.
  induction keys as [| a keys IH]; cbn [firstSeen]; constructor.
  - rewrite filter_In. intros [_ H]. rewrite jsstring_eqb_refl in H.
    discriminate H.
  - apply NoDup_filter. exact IH.
Qed.

Lemma firstSeen_snoc (keys : list jsstring) (k : jsstring) :
  firstSeen (keys ++ [k])
  = if in_dec (list_eq_dec N.eq_dec) k keys
    then firstSeen keys
    else firstSeen keys ++ [k].
Proof.
  induction keys as [| a keys IH]; cbn [app firstSeen].
  - destruct (in_dec (list_eq_dec N.eq_dec) k []) as [[] | _]. reflexivity.
  - rewrite IH.
    destruct (in_dec (list_eq_dec N.eq_dec) k keys) as [Hin | Hnin];
      destruct (in_dec (list_eq_dec N.eq_dec) k (a :: keys)) as [Hin' | Hnin'];
      try reflexivity.
    + exfalso. apply Hnin'. right. exact Hin.
    + rewrite filter_app. cbn [filter].
      destruct Hin' as [-> | Hin']; [| contradiction].
      rewrite jsstring_eqb_refl. cbn [negb]. rewrite app_nil_r. reflexivity.
    + rewrite filter_app. cbn [filter].
      destruct (jsstring_eqb_spec k a) as [-> | Hne].
      * exfalso. apply Hnin'. left. reflexivity.
      * reflexivity.
Qed.

Lemma group_snoc (key : jsstring) (l : list Quote.t) (p : Quote.t) :
  group key (l ++ [p])
  = group key l ++ (if jsstring_eqb (keyOf p) key then [p] else []).
Proof. unfold group. rewrite filter_app. reflexivity. Qed.

Lemma group_absent (key : jsstring) (l : list Quote.t) :
  ~ In key (map keyOf l) -> group key l = [].
Proof.
  unfold group. induction l as [| p l IH]; cbn [map In filter]; intros H;
    [reflexivity |].
  destruct (jsstring_eqb_spec (keyOf p) key) as [E | _].
  - exfalso. apply H. left. exact E.
  - apply IH. intros Hin. apply H. right. exact Hin.
Qed.

Lemma isFirstMin_In (q : Quote.t) (g : list Quote.t) :
  isFirstMin q g -> In q g.
Proof.
  intros (b & a & -> & _). apply in_elt.
Qed.

(** A later quote that is not cheaper leaves the first minimum in place. *)
Lemma isFirstMin_keep (q p : Quote.t) (g : list Quote.t) :
  isFirstMin q g -> cheaper p q = false -> isFirstMin q (g ++ [p]).
Proof.
  intros (b & a & -> & Hb & Ha) Hp. exists b, (a ++ [p]).
  split; [rewrite <- app_assoc; reflexivity | split; [exact Hb |]].
  apply Forall_app. split; [exact Ha | constructor; [exact Hp | constructor]].
Qed.

(** A later quote that is strictly cheaper becomes the first minimum. *)
Lemma isFirstMin_replace (q p : Quote.t) (g : list Quote.t) :
  allNumeric g -> numeric p = true ->
  isFirstMin q g -> cheaper p q = true -> isFirstMin p (g ++ [p]).
Proof.
  intros Hg Hp (b & a & -> & Hb & Ha) Hpq. exists (b ++ q :: a), [].
  split; [reflexivity | split; [| constructor]].
  unfold allNumeric in Hg. rewrite Forall_app in Hg.
  destruct Hg as [Hgb Hga]. inversion Hga as [| ? ? Hq Hga']; subst.
  apply Forall_app. split; [| constructor; [exact Hpq |]].
  - rewrite Forall_forall in *. intros x Hx.
    exact (cheaper_trans p q x Hp Hq (Hgb x Hx) Hpq (Hb x Hx)).
  - rewrite Forall_forall in *. intros x Hx.
    exact (cheaper_le_trans p q x Hp Hq (Hga' x Hx) Hpq (Ha x Hx)).
Qed.

Lemma group_numeric (key : jsstring) (l : list Quote.t) :
  allNumeric l -> allNumeric (group key l).
Proof.
  unfold allNumeric, group. rewrite !Forall_forall. intros H x Hx.
  apply filter_In in Hx. apply H. exact (proj1 Hx).
Qed.

Lemma dedupStep_inv (m : Map) (l : list Quote.t) (p : Quote.t) :
  allNumeric l -> numeric p = true ->
  dedupInv m l -> dedupInv (dedupStep m p) (l ++ [p]).
Proof.
  intros Hl Hp [Hkeys Hents]. unfold dedupStep, dedupInv, firstSeenKeys.
  rewrite map_app. cbn [map]. rewrite firstSeen_snoc.
  fold (firstSeenKeys l). rewrite <- Hkeys.
  assert (Hothers :
    forall e, In e m -> fst e <> keyOf p ->
              isFirstMin (snd e) (group (fst e) l) ->
              isFirstMin (snd e) (group (fst e) (l ++ [p]))).
  { intros e _ Hne H. rewrite group_snoc.
    destruct (jsstring_eqb_spec (keyOf p) (fst e)) as [E | _];
      [exfalso; apply Hne; symmetry; exact E |].
    rewrite app_nil_r. exact H. }
  destruct (Map_get m (keyOf p)) as [q |] eqn:Hget.
  - (* the key is present *)
    destruct (Map_set_present m (keyOf p) q p Hget) as (m1 & m2 & Hm & Hset).
    assert (Hin : In (keyOf p) (map keyOf l)).
    { apply In_firstSeen. fold (firstSeenKeys l). rewrite <- Hkeys, Hm.
      rewrite map_app. apply in_or_app. right. left. reflexivity. }
    destruct (in_dec (list_eq_dec N.eq_dec) (keyOf p) (map keyOf l))
      as [_ | Hnin]; [| contradiction].
    assert (Hnd : NoDup (map fst m))
      by (rewrite Hkeys; apply NoDup_firstSeen).
    assert (Hq : isFirstMin q (group (keyOf p) l)).
    { rewrite Forall_forall in Hents.
      apply (Hents (keyOf p, q)). rewrite Hm. apply in_elt. }
    assert (Hrest : forall e, In e (m1 ++ m2) -> fst e <> keyOf p).
    { intros e He E. rewrite Hm, map_app in Hnd. cbn [map fst] in Hnd.
      apply NoDup_remove_2 in Hnd. apply Hnd. rewrite <- map_app, <- E.
      apply in_map. exact He. }
    destruct (cheaper p q) eqn:Hpq.
    + rewrite Hset. split.
      * rewrite Hm, !map_app. reflexivity.
      * rewrite Forall_forall in *. intros e He.
        apply in_app_or in He. destruct He as [He | [<- | He]].
        -- split; [apply (Hents e); rewrite Hm; apply in_or_app; left; exact He |].
           apply Hothers.
           ++ rewrite Hm. apply in_or_app. left. exact He.
           ++ apply Hrest. apply in_or_app. left. exact He.
           ++ apply (Hents e). rewrite Hm. apply in_or_app. left. exact He.
        -- cbn [fst snd]. split; [reflexivity |].
           rewrite group_snoc, jsstring_eqb_refl.
           exact (isFirstMin_replace q p _ (group_numeric (keyOf p) l Hl) Hp Hq Hpq).
        -- split; [apply (Hents e); rewrite Hm; apply in_or_app; right; right;
                   exact He |].
           apply Hothers.
           ++ rewrite Hm. apply in_or_app. right. right. exact He.
           ++ apply Hrest. apply in_or_app. right. exact He.
           ++ apply (Hents e). rewrite Hm. apply in_or_app. right. right.
              exact He.
    + split; [reflexivity |].
      rewrite Forall_forall in *. intros e He.
      split; [exact (proj1 (Hents e He)) |].
      destruct (list_eq_dec N.eq_dec (fst e) (keyOf p)) as [E | Hne].
      * assert (Heq : e = (keyOf p, q)).
        { rewrite Hm in He. apply in_app_or in He.
          destruct He as [He | [<- | He]]; [| reflexivity |].
          - exfalso. apply (Hrest e); [apply in_or_app; left; exact He | exact E].
          - exfalso. apply (Hrest e); [apply in_or_app; right; exact He | exact E]. }
        subst e. cbn [fst snd]. rewrite group_snoc, jsstring_eqb_refl.
        exact (isFirstMin_keep q p _ Hq Hpq).
      * apply Hothers; [exact He | exact Hne | exact (proj2 (Hents e He))].
  - (* the key is new *)
    assert (Hnin : ~ In (keyOf p) (map keyOf l)).
    { rewrite <- In_firstSeen. fold (firstSeenKeys l). rewrite <- Hkeys.
      apply Map_get_None. exact Hget. }
    destruct (in_dec (list_eq_dec N.eq_dec) (keyOf p) (map keyOf l))
      as [Hin | _]; [contradiction |].
    rewrite (Map_set_absent m (keyOf p) p Hget). split.
    + rewrite map_app. reflexivity.
    + apply Forall_app. split.
      * rewrite Forall_forall in *. intros e He.
        split; [exact (proj1 (Hents e He)) |].
        apply Hothers; [exact He | | exact (proj2 (Hents e He))].
        intros E. apply Hnin. apply In_firstSeen. fold (firstSeenKeys l).
        rewrite <- Hkeys, <- E. apply in_map. exact He.
      * constructor; [| constructor]. cbn [fst snd]. split; [reflexivity |].
        rewrite group_snoc, jsstring_eqb_refl, (group_absent _ _ Hnin).
        exists [], []. split; [reflexivity | split; constructor].
Qed.

Lemma byProvider_inv (l : list Quote.t) :
  allNumeric l -> dedupInv (byProvider l) l.
Proof.
  unfold byProvider. induction l as [| p l IH] using rev_ind; intros Hl.
  - split; [reflexivity | constructor].
  - unfold allNumeric in Hl. rewrite Forall_app in Hl.
    destruct Hl as [Hl Hp]. inversion Hp; subst.
    rewrite fold_left_app. cbn [fold_left].
    apply dedupStep_inv; auto.
Qed.

Lemma deduped_keys (l : list Quote.t) :
  allNumeric l -> map keyOf (deduped l) = firstSeenKeys l.
Proof.
  intros Hl. destruct (byProvider_inv l Hl) as [Hkeys Hents].
  rewrite <- Hkeys. unfold deduped, Map_values. rewrite map_map.
  apply map_ext_in. intros e He. rewrite Forall_forall in Hents.
  exact (proj1 (Hents e He)).
Qed.

Lemma deduped_first_minima (l : list Quote.t) :
  allNumeric l ->
  Forall (fun q => isFirstMin q (group (keyOf q) l)) (deduped l).
Proof.
  intros Hl. destruct (byProvider_inv l Hl) as [_ Hents].
  unfold deduped, Map_values. rewrite Forall_forall in *. intros q Hq.
  apply in_map_iff in Hq. destruct Hq as (e & <- & He).
  destruct (Hents e He) as [Hk Hmin]. rewrite Hk. exact Hmin.
Qed.

Lemma deduped_numeric (l : list Quote.t) :
  allNumeric l -> allNumeric (deduped l).
Proof.
  intros Hl. pose proof (deduped_first_minima l Hl) as H.
  unfold allNumeric in *. rewrite Forall_forall in *. intros q Hq.
  apply Hl. pose proof (isFirstMin_In _ _ (H q Hq)) as Hin.
  unfold group in Hin. apply filter_In in Hin. exact (proj1 Hin).
Qed.

(** Quotes with pairwise distinct keys enter the map one after the other. *)
Lemma fold_dedupStep_distinct (l : list Quote.t) (m : Map) :
  NoDup (map fst m ++ map keyOf l) ->
  fold_left dedupStep l m = m ++ map (fun q => (keyOf q, q)) l.
Proof.
  revert m. induction l as [| p l IH]; intros m Hnd; cbn [fold_left map].
  - rewrite app_nil_r. reflexivity.
  - cbn [map] in Hnd.
    assert (Hget : Map_get m (keyOf p) = None).
    { apply Map_get_None. intros Hin.
      apply NoDup_remove_2 in Hnd. apply Hnd. apply in_or_app. left.
      exact Hin. }
    unfold dedupStep at 2. rewrite Hget, (Map_set_absent m _ p Hget).
    rewrite IH.
    + rewrite <- app_assoc. reflexivity.
    + rewrite map_app. cbn [map fst]. rewrite <- app_assoc. exact Hnd.
Qed.

Lemma deduped_distinct (l : list Quote.t) :
  NoDup (map keyOf l) -> deduped l = l.
Proof.
  intros Hnd. unfold deduped, byProvider, Map_values.
  rewrite (fold_dedupStep_distinct l []) by exact Hnd.
  cbn [app]. rewrite map_map. cbn [snd]. apply map_id.
Qed.







(** C7: aggregating the sorted, deduplicated output again gives the same
    result as aggregating the original quotes. *)
Theorem aggregate_idempotent (quotes : list Quote.t) :
  allNumeric quotes ->
  aggregate (fst (aggregate quotes)) = aggregate quotes.
Proof.
  intros Hl. pose proof (deduped_numeric quotes Hl) as Hk.
  pose proof (Array_sort_perm (deduped quotes)) as Hperm.
  pose proof (Array_sort_numeric _ Hk) as Hsn.
  pose proof (Array_sort_ascending _ Hk) as Hasc.
  assert (Hnd : NoDup (map keyOf (Array_sort byPrice (deduped quotes)))).
  { apply (Permutation_NoDup (Permutation_map keyOf Hperm)).
    rewrite (deduped_keys quotes Hl). apply NoDup_firstSeen. }
  unfold aggregate, all_providers, lowest. cbn [fst].
  rewrite (deduped_distinct _ Hnd).
  rewrite (Array_sort_sorted _ Hsn Hasc).
  f_equal.
  rewrite (lowestOf_head_of_sort _ Hsn), (Array_sort_sorted _ Hsn Hasc).
  symmetry. exact (lowestOf_head_of_sort _ Hk).
Qed.

(** The spec's example aggregated twice. *)
Lemma aggregate_idempotent_witness :
  allNumeric [quoteOf "A" 100; quoteOf "B" 90; quoteOf "A" 80]
  /\ aggregate
       (fst (aggregate [quoteOf "A" 100; quoteOf "B" 90; quoteOf "A" 80]))
     = aggregate [quoteOf "A" 100; quoteOf "B" 90; quoteOf "A" 80].
Proof.
  assert (H : allNumeric [quoteOf "A" 100; quoteOf "B" 90; quoteOf "A" 80])
    by (repeat constructor).
  split; [exact H | exact (aggregate_idempotent _ H)].
Defined.

(** Every quote the loop pushes has a number for its amount, so the facts
    above apply to the quotes of a run. *)
Lemma scrapeRow_numeric (r : row) (q : Quote.t) :
  scrapeRow r = Some q -> numeric q = true.
Proof.
  unfold scrapeRow. destruct (innerText r) as [text |]; [| discriminate].
  destruct (isEmpty text); [discriminate |].
  destruct (parseCurrencyPrice_number text) as [Hn | (c & v & Hs & _)].
  - rewrite Hn. discriminate.
  - rewrite Hs. intros H. injection H as <-. reflexivity.
Qed.

Lemma scrapeRows_numeric (rs : list row) : allNumeric (scrapeRows rs).
Proof.
  induction rs as [| r rs IH]; cbn [scrapeRows]; [constructor |].
  destruct (scrapeRow r) as [q |] eqn:Hq; [| exact IH].
  constructor; [exact (scrapeRow_numeric r q Hq) | exact IH].
Qed.

(* ================================================================== *)
(** * The browser life cycle *)
(* ================================================================== *)

(** When opening a hotel result fails, the handler closes the browser
    before it throws. *)
Lemma open_result_failure_closes_browser :
  run 0 parseDateOnly (Date_UTC 2025 5 1 10 0) (worldWith true false None)
      (js "Paris") None
  = (Threw (CouldNotOpenHotel (js "Paris")),
     [Launched; ContextOpened; PageOpened;
      Navigated (js "Paris") (js "2025-06-16") (js "2025-06-21"); Closed]).
Proof. vm_compute. reflexivity. Qed.

(** A run that completes closes the browser before it returns. *)
Lemma completed_run_closes_browser :
  exists r,
    run 0 parseDateOnly (Date_UTC 2025 5 1 10 0)
        (worldWith true true (Some sampleRows)) (js "Paris") None
    = (Returned r,
       [Launched; ContextOpened; PageOpened;
        Navigated (js "Paris") (js "2025-06-16") (js "2025-06-21");
        ResultOpened; Closed])
    /\ res_all_providers r
       = [quoteOfRow "Agoda" "from $120" 120;
          quoteOfRow "Expedia" "$1,100 total" 1100]
    /\ res_lowest r = Some (quoteOfRow "Agoda" "from $120" 120).
Proof. eexists. split; [| split]; vm_compute; reflexivity. Qed.

(** C8 fails on the code: when [page.goto] rejects after the browser was
    launched, the error leaves [findLowestPrice] with the browser still
    open; no [browser.close()] lies on that path.  The same holds for every
    valid stay window, whatever the later calls would have done. *)
Theorem goto_failure_leaves_browser_open (tz : Z)
  (parse : jsstring -> option Z) (now : Z) (city : jsstring)
  (checkinStr : option jsstring) (w : world) :
  let w' := mkWorld true true true false (openResult_ok w) (heading w)
                    (rating w) (rows w) (close_ok w) in
  run tz parse now w' city checkinStr
  = match withinThisYearFiveNights tz parse now checkinStr with
    | Threw e => (Threw e, [])
    | Returned _ =>
      (Threw (HostError "page.goto"), [Launched; ContextOpened; PageOpened])
    end
  /\ browserLeftOpen [Launched; ContextOpened; PageOpened] = true.
Proof.
  split; [| reflexivity].
  unfold run, findLowestPrice, bind, liftOutcome.
  destruct (withinThisYearFiveNights tz parse now checkinStr) as [[dtIn dtOut] | e];
    reflexivity.
Qed.

(* ================================================================== *)
(** * Further properties of the stay window *)
(* ================================================================== *)

Lemma mondayStart_is_Monday (tz now : Z) : getDay tz (mondayStart tz now) = 1.
Proof.
  unfold mondayStart, daysUntilMon, MON, getDay, WeekDay, LocalTime, Day,
    msPerDay.
  generalize (earliest now). intros e. zdiv.
Qed.

Lemma mondayStart_le (tz now : Z) : mondayStart tz now <= now + 20 * 86400000.
Proof.
  rewrite mondayStart_eq. pose proof (daysUntilMon_range tz now). lia.
Qed.

Lemma autoPick_shift (tz now : Z) :
  shiftTaken tz now = true ->
  autoPick tz now
  = (inDate0 tz now - shiftDays tz now * 86400000,
     outDate0 tz now - shiftDays tz now * 86400000).
Proof. intros H. rewrite autoPick_eq, H. reflexivity. Qed.

(** X1: on a host whose offset from UTC stays the same from the clock
    reading to the check-in, when neither the fallback nor the shift
    applies, the check-in picked is a Monday of the host's calendar, 14 to
    20 days after the clock reading. *)
Theorem autoPick_plain_is_monday (tz : Z) (parse : jsstring -> option Z)
  (now : Z) :
  fallbackTaken tz now = false -> shiftTaken tz now = false ->
  exists checkIn checkOut,
    withinThisYearFiveNights tz parse now None = Returned (checkIn, checkOut)
    /\ getDay tz checkIn = 1
    /\ now + 14 * 86400000 <= checkIn <= now + 20 * 86400000.
Proof.
  intros Hf Hs. exists (mondayStart tz now), (outDate0 tz now).
  split; [| split; [apply mondayStart_is_Monday |
                    split; [apply mondayStart_ge_earliest | apply mondayStart_le]]].
  unfold withinThisYearFiveNights. rewrite (autoPick_noshift _ _ Hs).
  rewrite (proj1 (inDate0_monday _ _ Hf)). reflexivity.
Qed.

(** From 1 June 2025 the pick is Monday 16 June. *)
Lemma autoPick_plain_is_monday_witness :
  fallbackTaken 0 (Date_UTC 2025 5 1 10 0) = false
  /\ shiftTaken 0 (Date_UTC 2025 5 1 10 0) = false
  /\ exists checkIn checkOut,
       withinThisYearFiveNights 0 parseDateOnly (Date_UTC 2025 5 1 10 0) None
       = Returned (checkIn, checkOut)
       /\ getDay 0 checkIn = 1
       /\ Date_UTC 2025 5 1 10 0 + 14 * 86400000 <= checkIn
          <= Date_UTC 2025 5 1 10 0 + 20 * 86400000.
Proof.
  assert (Hf : fallbackTaken 0 (Date_UTC 2025 5 1 10 0) = false)
    by (vm_compute; reflexivity).
  assert (Hs : shiftTaken 0 (Date_UTC 2025 5 1 10 0) = false)
    by (vm_compute; reflexivity).
  split; [exact Hf | split; [exact Hs |]].
  exact (autoPick_plain_is_monday 0 parseDateOnly (Date_UTC 2025 5 1 10 0)
           Hf Hs).
Defined.

(** X2: the check-out picked is never after local midnight of December 31
    of the current year; when the shift is applied it is the least shift by
    whole days that achieves this, so the check-out lies within the day
    before. *)
Theorem autoPick_checkout_clamped (tz now : Z) :
  snd (autoPick tz now) <= lastDay tz now
  /\ (shiftTaken tz now = true ->
      lastDay tz now - 86400000 < snd (autoPick tz now)
      /\ 1 <= shiftDays tz now).
Proof.
  pose proof (shiftDays_spec tz now) as Hc.
  destruct (shiftTaken tz now) eqn:Hs.
  - rewrite (autoPick_shift _ _ Hs), snd_pair.
    apply shiftTaken_true in Hs. split; [lia | intros _; lia].
  - rewrite (autoPick_noshift _ _ Hs), snd_pair.
    apply shiftTaken_false in Hs. split; [exact Hs | intros H; discriminate H].
Qed.

(** On 15 December 2025, 10:00 UTC, the shift is by four days. *)
Lemma autoPick_checkout_clamped_witness :
  shiftTaken 0 (Date_UTC 2025 11 15 10 0) = true
  /\ lastDay 0 (Date_UTC 2025 11 15 10 0) - 86400000
     < snd (autoPick 0 (Date_UTC 2025 11 15 10 0))
     <= lastDay 0 (Date_UTC 2025 11 15 10 0)
  /\ shiftDays 0 (Date_UTC 2025 11 15 10 0) = 4.
Proof.
  assert (Hs : shiftTaken 0 (Date_UTC 2025 11 15 10 0) = true)
    by (vm_compute; reflexivity).
  split; [exact Hs |].
  destruct (autoPick_checkout_clamped 0 (Date_UTC 2025 11 15 10 0))
    as [Hle Hshift].
  split; [split; [exact (proj1 (Hshift Hs)) | exact Hle] |].
  vm_compute. reflexivity.
Defined.

(** X3: whenever the December 10 fallback is taken, the check-in returned
    lies before the clock reading. *)
Theorem fallback_checkin_before_now (tz : Z) (parse : jsstring -> option Z)
  (now : Z) :
  currentYear tz now < 0 \/ 99 < currentYear tz now ->
  fallbackTaken tz now = true ->
  exists checkIn checkOut,
    withinThisYearFiveNights tz parse now None = Returned (checkIn, checkOut)
    /\ checkIn = Date_ymd tz (currentYear tz now) 11 10
    /\ checkIn < now.
Proof.
  intros Hy Hf.
  pose proof (fallback_in_past tz now Hy Hf) as Hpast.
  rewrite (autoPick_noshift _ _ (fallback_no_shift _ _ Hf)), fst_pair in Hpast.
  exists (inDate0 tz now), (outDate0 tz now).
  split; [| split; [exact (inDate0_fallback _ _ Hf) | exact Hpast]].
  unfold withinThisYearFiveNights.
  rewrite (autoPick_noshift _ _ (fallback_no_shift _ _ Hf)). reflexivity.
Qed.

(** On 20 December 2025 the check-in returned is 10 December 2025. *)
Lemma fallback_checkin_before_now_witness :
  99 < currentYear 0 (Date_UTC 2025 11 20 10 0)
  /\ fallbackTaken 0 (Date_UTC 2025 11 20 10 0) = true
  /\ exists checkIn checkOut,
       withinThisYearFiveNights 0 parseDateOnly (Date_UTC 2025 11 20 10 0) None
       = Returned (checkIn, checkOut)
       /\ checkIn = Date_ymd 0 (currentYear 0 (Date_UTC 2025 11 20 10 0)) 11 10
       /\ checkIn < Date_UTC 2025 11 20 10 0.
Proof.
  assert (Hy : 99 < currentYear 0 (Date_UTC 2025 11 20 10 0))
    by (vm_compute; reflexivity).
  assert (Hf : fallbackTaken 0 (Date_UTC 2025 11 20 10 0) = true)
    by (vm_compute; reflexivity).
  split; [exact Hy | split; [exact Hf |]].
  exact (fallback_checkin_before_now 0 parseDateOnly
           (Date_UTC 2025 11 20 10 0) (or_intror Hy) Hf).
Defined.

(** X4: the check-in picked is never more than 20 days after the clock
    reading. *)
Theorem autoPick_at_most_20_days (tz : Z) (parse : jsstring -> option Z)
  (now : Z) :
  currentYear tz now < 0 \/ 99 < currentYear tz now ->
  exists checkIn checkOut,
    withinThisYearFiveNights tz parse now None = Returned (checkIn, checkOut)
    /\ checkIn <= now + 20 * 86400000.
Proof.
  intros Hy. exists (fst (autoPick tz now)), (snd (autoPick tz now)).
  split.
  - unfold withinThisYearFiveNights. rewrite <- surjective_pairing.
    reflexivity.
  - destruct (fallbackTaken tz now) eqn:Hf.
    + pose proof (fallback_in_past tz now Hy Hf). lia.
    + pose proof (mondayStart_le tz now) as Hm.
      destruct (inDate0_monday _ _ Hf) as [Hin _].
      pose proof (shiftDays_spec tz now) as Hc.
      destruct (shiftTaken tz now) eqn:Hs.
      * rewrite (autoPick_shift _ _ Hs), fst_pair.
        apply shiftTaken_true in Hs. lia.
      * rewrite (autoPick_noshift _ _ Hs), fst_pair. lia.
Qed.

Lemma autoPick_at_most_20_days_witness :
  99 < currentYear 0 (Date_UTC 2025 11 15 10 0)
  /\ exists checkIn checkOut,
       withinThisYearFiveNights 0 parseDateOnly (Date_UTC 2025 11 15 10 0) None
       = Returned (checkIn, checkOut)
       /\ checkIn <= Date_UTC 2025 11 15 10 0 + 20 * 86400000.
Proof.
  assert (Hy : 99 < currentYear 0 (Date_UTC 2025 11 15 10 0))
    by (vm_compute; reflexivity).
  split; [exact Hy |].
  exact (autoPick_at_most_20_days 0 parseDateOnly (Date_UTC 2025 11 15 10 0)
           (or_intror Hy)).
Defined.

(** X5: the year test reads the host's calendar while a date-only string
    is read as UTC midnight: on a host west of UTC, 1 January of the next
    year passes the test as a day of the current year, and the window
    returned starts in the next year by the UTC calendar used for
    printing. *)
Theorem next_new_year_accepted_west_of_utc (tz : Z)
  (parse : jsstring -> option Z) (now : Z) (s : jsstring) (Y : Z) :
  s <> [] ->
  - 86400000 <= tz < 0 ->
  getFullYear tz now = Y ->
  parse s = Some (DayFromYear (Y + 1) * 86400000) ->
  now < DayFromYear (Y + 1) * 86400000 ->
  withinThisYearFiveNights tz parse now (Some s)
  = Returned (DayFromYear (Y + 1) * 86400000,
              DayFromYear (Y + 1) * 86400000 + 5 * 86400000)
  /\ YearFromTime (DayFromYear (Y + 1) * 86400000) = Y + 1.
Proof.
  intros Hs Htz Hy Hp Hnow.
  pose proof (DayFromYear_succ Y) as H1.
  pose proof (DaysInYear_range Y) as H2.
  pose proof (DayFromYear_succ (Y + 1)) as H3.
  pose proof (DaysInYear_range (Y + 1)) as H4.
  split.
  - destruct s as [| c s']; [contradiction |].
    unfold withinThisYearFiveNights, currentYear. rewrite Hp, Hy.
    destruct (Z.leb_spec (DayFromYear (Y + 1) * 86400000) now); [lia |].
    assert (E : getFullYear tz (DayFromYear (Y + 1) * 86400000) = Y)
      by (apply getFullYear_iff; lia).
    rewrite E, Z.eqb_refl. reflexivity.
  - apply YearFromTime_iff. lia.
Qed.

(** New York time, 1 June 2025: [--checkin 2026-01-01] is accepted. *)
Lemma next_new_year_accepted_west_of_utc_witness :
  js "2026-01-01" <> []
  /\ - 86400000 <= - 18000000 < 0
  /\ getFullYear (- 18000000) (Date_UTC 2025 5 1 10 0) = 2025
  /\ parseDateOnly (js "2026-01-01")
     = Some (DayFromYear (2025 + 1) * 86400000)
  /\ Date_UTC 2025 5 1 10 0 < DayFromYear (2025 + 1) * 86400000
  /\ withinThisYearFiveNights (- 18000000) parseDateOnly
       (Date_UTC 2025 5 1 10 0) (Some (js "2026-01-01"))
     = Returned (DayFromYear (2025 + 1) * 86400000,
                 DayFromYear (2025 + 1) * 86400000 + 5 * 86400000)
  /\ fmtDate (DayFromYear (2025 + 1) * 86400000) = js "2026-01-01".
Proof.
  assert (H1 : js "2026-01-01" <> []) by (vm_compute; discriminate).
  assert (H2 : - 86400000 <= - 18000000 < 0) by lia.
  assert (H3 : getFullYear (- 18000000) (Date_UTC 2025 5 1 10 0) = 2025)
    by (vm_compute; reflexivity).
  assert (H4 : parseDateOnly (js "2026-01-01")
               = Some (DayFromYear (2025 + 1) * 86400000))
    by (vm_compute; reflexivity).
  assert (H5 : Date_UTC 2025 5 1 10 0 < DayFromYear (2025 + 1) * 86400000)
    by (vm_compute; reflexivity).
  repeat (split; [assumption |]).
  split; [| vm_compute; reflexivity].
  exact (proj1 (next_new_year_accepted_west_of_utc (- 18000000) parseDateOnly
                  (Date_UTC 2025 5 1 10 0) (js "2026-01-01") 2025
                  H1 H2 H3 H4 H5)).
Defined.

(* ================================================================== *)
(** * Formatting dates *)
(* ================================================================== *)

Lemma digitsValue_snoc (l : list N) (d acc : N) :
  digitsValue acc (l ++ [d]) = (10 * digitsValue acc l + (d - 48))%N.
Proof.
  revert acc. induction l as [| x l IH]; intros acc; cbn [app digitsValue];
    [reflexivity | apply IH].
Qed.

Lemma padDigits_all_digits (w : nat) (n : Z) :
  forallb isDigit (padDigits w n) = true.
Proof.
  revert n. induction w as [| w IH]; intros n; cbn [padDigits];
    [reflexivity |].
  rewrite forallb_app, IH. cbn [forallb andb]. rewrite andb_true_r.
  unfold isDigit. apply andb_true_iff. split; apply N.leb_le; zdiv.
Qed.

Lemma padDigits_value (w : nat) (n : Z) :
  digitsToZ (padDigits w n) = n mod 10 ^ Z.of_nat w.
Proof.
  unfold digitsToZ. revert n. induction w as [| w IH]; intros n.
  - cbn. rewrite Z.mod_1_r. reflexivity.
  - cbn [padDigits]. rewrite digitsValue_snoc.
    rewrite Nat2Z.inj_succ, Z.pow_succ_r by lia.
    rewrite Z.rem_mul_r by lia.
    rewrite N2Z.inj_add, N2Z.inj_mul, IH.
    assert (E : Z.of_N (Z.to_N (48 + n mod 10) - 48) = n mod 10) by zdiv.
    rewrite E. change (Z.of_N 10) with 10. lia.
Qed.

(** The date-only parser reads back a year, month and day written with
    leading zeros. *)
Lemma parseDateOnly_padded (y m d : Z) :
  0 <= y <= 9999 -> 1 <= m <= 12 -> 1 <= d <= 31 ->
  parseDateOnly (padDigits 4 y ++ [45%N] ++ padDigits 2 m ++ [45%N]
                 ++ padDigits 2 d)
  = Some (MakeDate (MakeDay y (m - 1) d) 0).
Proof.
  intros Hy Hm Hd.
  pose proof (padDigits_all_digits 4 y) as Dy.
  pose proof (padDigits_all_digits 2 m) as Dm.
  pose proof (padDigits_all_digits 2 d) as Dd.
  pose proof (padDigits_value 4 y) as Vy.
  pose proof (padDigits_value 2 m) as Vm.
  pose proof (padDigits_value 2 d) as Vd.
  rewrite Z.mod_small in Vy by (change (10 ^ Z.of_nat 4) with 10000; lia).
  rewrite Z.mod_small in Vm by (change (10 ^ Z.of_nat 2) with 100; lia).
  rewrite Z.mod_small in Vd by (change (10 ^ Z.of_nat 2) with 100; lia).
  cbn [padDigits app] in *.
  unfold parseDateOnly.
  cbn [forallb] in *.
  repeat match goal with
         | H : _ && _ = true |- _ =>
           apply andb_true_iff in H; destruct H
         end.
  repeat match goal with
         | H : isDigit ?x = true |- context [isDigit ?x] => rewrite H
         end.
  cbn [andb]. change (45 =? 45)%N with true. cbn [andb].
  rewrite Vy, Vm, Vd.
  replace ((1 <=? m) && (m <=? 12) && (1 <=? d) && (d <=? 31)) with true;
    [reflexivity |].
  symmetry. repeat (apply andb_true_iff; split); apply Z.leb_le; lia.
Qed.

Lemma filter_cons_if {A : Type} (f : A -> bool) (x : A) (l : list A) :
  filter f (x :: l) = if f x then x :: filter f l else filter f l.
Proof. reflexivity. Qed.

(** One step of the search for the month of a day of the year. *)
Ltac month_step :=
  rewrite filter_cons_if; cbv beta;
  cbn [monthStart Z.add Pos.add Pos.succ Pos.add_carry];
  match goal with
  | |- context [?a <=? ?d] =>
    first [ replace (a <=? d) with true by (symmetry; apply Z.leb_le; lia)
          | replace (a <=? d) with false by (symmetry; apply Z.leb_gt; lia) ]
  end;
  cbv iota.

Ltac month_case :=
  repeat month_step;
  cbn [filter List.length Z.of_nat Pos.of_succ_nat Pos.succ monthStart];
  repeat match goal with
         | |- context [?m / 12] =>
           let v := eval cbv in (m / 12) in change (m / 12) with v
         | |- context [?m mod 12] =>
           let v := eval cbv in (m mod 12) in change (m mod 12) with v
         end;
  rewrite ?Z.add_0_r;
  match goal with
  | E : DaysInYear _ = _ |- _ => rewrite ?E
  end;
  try (change (365 =? 366) with false); try (change (366 =? 366) with true);
  cbn [monthStart]; lia.

(** The month and the day of the month that are read off a time value name
    its day. *)
Lemma civil_of_time (t : Z) :
  0 <= MonthFromTime t <= 11
  /\ 1 <= DateFromTime t <= 31
  /\ MakeDay (YearFromTime t) (MonthFromTime t) (DateFromTime t) = Day t.
Proof.
  unfold DateFromTime, MonthFromTime, DayWithinYear, MakeDay, InLeapYear.
  pose proof (YearFromDay_spec (Day t)) as Hs.
  fold (YearFromTime t) in Hs.
  rewrite DayFromYear_succ in Hs.
  set (y := YearFromTime t) in *.
  set (dy := Day t - DayFromYear y) in *.
  assert (Hdy : 0 <= dy < DaysInYear y) by (unfold dy; lia).
  assert (Hday : Day t = DayFromYear y + dy) by (unfold dy; lia).
  rewrite Hday. clearbody dy. clear Hs Hday.
  destruct (DaysInYear_range y) as [E | E]; rewrite E in *;
    [change (365 =? 366) with false | change (366 =? 366) with true].
  - assert (Hc : dy < 31 \/ 31 <= dy < 59 \/ 59 <= dy < 90 \/ 90 <= dy < 120
                 \/ 120 <= dy < 151 \/ 151 <= dy < 181 \/ 181 <= dy < 212
                 \/ 212 <= dy < 243 \/ 243 <= dy < 273 \/ 273 <= dy < 304
                 \/ 304 <= dy < 334 \/ 334 <= dy) by lia.
    repeat destruct Hc as [Hc | Hc]; month_case.
  - assert (Hc : dy < 31 \/ 31 <= dy < 60 \/ 60 <= dy < 91 \/ 91 <= dy < 121
                 \/ 121 <= dy < 152 \/ 152 <= dy < 182 \/ 182 <= dy < 213
                 \/ 213 <= dy < 244 \/ 244 <= dy < 274 \/ 274 <= dy < 305
                 \/ 305 <= dy < 335 \/ 335 <= dy) by lia.
    repeat destruct Hc as [Hc | Hc]; month_case.
Qed.

Lemma isoDate_parse (t : Z) :
  0 <= YearFromTime t <= 9999 ->
  parseDateOnly (isoDate t) = Some (Day t * 86400000).
Proof.
  intros Hy. destruct (civil_of_time t) as (Hm & Hd & Hday).
  unfold isoDate.
  rewrite (parseDateOnly_padded (YearFromTime t) (MonthFromTime t + 1)
             (DateFromTime t)) by lia.
  replace (MonthFromTime t + 1 - 1) with (MonthFromTime t) by lia.
  rewrite Hday. unfold MakeDate, msPerDay. rewrite Z.add_0_r. reflexivity.
Qed.

(** X6: for a time value in the years 0 to 9999, [fmtDate] gives a string
    of ten units that the date-only parser reads back as UTC midnight of
    the same day. *)
Theorem fmtDate_parse_round_trip (t : Z) :
  0 <= YearFromTime t <= 9999 ->
  parseDateOnly (fmtDate t) = Some (Day t * 86400000)
  /\ List.length (fmtDate t) = 10%nat.
Proof.
  intros Hy. split; [exact (isoDate_parse t Hy) | reflexivity].
Qed.

Lemma fmtDate_parse_round_trip_witness :
  0 <= YearFromTime (Date_UTC 2025 11 15 10 0) <= 9999
  /\ fmtDate (Date_UTC 2025 11 15 10 0) = js "2025-12-15"
  /\ parseDateOnly (fmtDate (Date_UTC 2025 11 15 10 0))
     = Some (Day (Date_UTC 2025 11 15 10 0) * 86400000).
Proof.
  assert (H : 0 <= YearFromTime (Date_UTC 2025 11 15 10 0) <= 9999)
    by (vm_compute; split; discriminate).
  split; [exact H | split; [vm_compute; reflexivity |]].
  exact (proj1 (fmtDate_parse_round_trip (Date_UTC 2025 11 15 10 0) H)).
Defined.

(** Whatever branch returns, the two ends of the window are five days
    apart. *)
Lemma window_five_days (tz : Z) (parse : jsstring -> option Z) (now : Z)
  (checkinStr : option jsstring) (checkIn checkOut : Z) :
  withinThisYearFiveNights tz parse now checkinStr
  = Returned (checkIn, checkOut) ->
  checkOut = checkIn + 5 * 86400000.
Proof.
  unfold withinThisYearFiveNights.
  assert (Hauto : Returned (autoPick tz now) = Returned (checkIn, checkOut) ->
                  checkOut = checkIn + 5 * 86400000).
  { intros H. injection H as H. pose proof (autoPick_five_nights tz now) as H5.
    rewrite H in H5. exact H5. }
  destruct checkinStr as [[| c s'] |]; try exact Hauto.
  destruct (parse (c :: s')) as [d |]; [| discriminate].
  destruct (d <=? now); [discriminate |].
  destruct (negb (getFullYear tz d =? currentYear tz now)); [discriminate |].
  intros H. injection H as <- <-. reflexivity.
Qed.

(** X7: the check-in and check-out strings of a window (years 0 to 9999)
    name days exactly five apart, for a requested and for a picked
    check-in alike. *)
Theorem printed_window_five_days (tz : Z) (parse : jsstring -> option Z)
  (now : Z) (checkinStr : option jsstring) (checkIn checkOut : Z) :
  withinThisYearFiveNights tz parse now checkinStr
  = Returned (checkIn, checkOut) ->
  0 <= YearFromTime checkIn -> YearFromTime checkOut <= 9999 ->
  parseDateOnly (fmtDate checkIn) = Some (Day checkIn * 86400000)
  /\ parseDateOnly (fmtDate checkOut)
     = Some (Day checkIn * 86400000 + 5 * 86400000).
Proof.
  intros Hw Hlo Hhi.
  pose proof (window_five_days tz parse now checkinStr checkIn checkOut Hw)
    as H5.
  assert (Hday : Day checkOut = Day checkIn + 5)
    by (rewrite H5; unfold Day, msPerDay; zdiv).
  assert (Hyears : YearFromTime checkIn <= YearFromTime checkOut).
  { pose proof (YearFromDay_spec (Day checkIn)) as Hi.
    pose proof (YearFromDay_spec (Day checkOut)) as Ho.
    fold (YearFromTime checkIn) in Hi. fold (YearFromTime checkOut) in Ho.
    destruct (Z_le_gt_dec (YearFromTime checkIn) (YearFromTime checkOut))
      as [Hle | Hgt]; [exact Hle |].
    destruct (Z.eq_dec (YearFromTime checkOut + 1) (YearFromTime checkIn))
      as [E | Hne].
    - rewrite E in Ho. lia.
    - pose proof (DayFromYear_lt (YearFromTime checkOut + 1)
                    (YearFromTime checkIn)). lia. }
  unfold fmtDate.
  rewrite (isoDate_parse checkIn) by lia.
  rewrite (isoDate_parse checkOut) by lia.
  rewrite Hday. split; [reflexivity | f_equal; lia].
Qed.

(** [--checkin 2025-11-10] prints as 2025-11-10 and 2025-11-15. *)
Lemma printed_window_five_days_witness :
  withinThisYearFiveNights 0 parseDateOnly (Date_UTC 2025 5 1 10 0)
    (Some (js "2025-11-10"))
  = Returned (Date_UTC 2025 10 10 0 0, Date_UTC 2025 10 15 0 0)
  /\ 0 <= YearFromTime (Date_UTC 2025 10 10 0 0)
  /\ YearFromTime (Date_UTC 2025 10 15 0 0) <= 9999
  /\ parseDateOnly (fmtDate (Date_UTC 2025 10 10 0 0))
     = Some (Day (Date_UTC 2025 10 10 0 0) * 86400000)
  /\ parseDateOnly (fmtDate (Date_UTC 2025 10 15 0 0))
     = Some (Day (Date_UTC 2025 10 10 0 0) * 86400000 + 5 * 86400000).
Proof.
  assert (Hw : withinThisYearFiveNights 0 parseDateOnly
                 (Date_UTC 2025 5 1 10 0) (Some (js "2025-11-10"))
               = Returned (Date_UTC 2025 10 10 0 0, Date_UTC 2025 10 15 0 0))
    by (vm_compute; reflexivity).
  assert (H1 : 0 <= YearFromTime (Date_UTC 2025 10 10 0 0))
    by (vm_compute; discriminate).
  assert (H2 : YearFromTime (Date_UTC 2025 10 15 0 0) <= 9999)
    by (vm_compute; discriminate).
  split; [exact Hw | split; [exact H1 | split; [exact H2 |]]].
  exact (printed_window_five_days 0 parseDateOnly (Date_UTC 2025 5 1 10 0)
           (Some (js "2025-11-10")) _ _ Hw H1 H2).
Defined.

(* ================================================================== *)
(** * Further properties of price parsing *)
(* ================================================================== *)

Lemma forallb_dropWhile {A : Type} (P f : A -> bool) (l : list A) :
  forallb P l = true -> forallb P (dropWhile f l) = true.
Proof.
  induction l as [| x l IH]; cbn [dropWhile forallb]; intros H;
    [reflexivity |].
  destruct (f x); [| exact H].
  apply andb_true_iff in H. exact (IH (proj2 H)).
Qed.

Lemma forallb_skipn {A : Type} (P : A -> bool) (n : nat) (l : list A) :
  forallb P l = true -> forallb P (skipn n l) = true.
Proof.
  revert l. induction n as [| n IH]; intros l H; [exact H |].
  destruct l as [| x l]; [reflexivity |].
  cbn [skipn]. cbn [forallb] in H. apply andb_true_iff in H.
  exact (IH l (proj2 H)).
Qed.

Lemma matchAt_needs_digit (s : jsstring) :
  forallb (fun c => negb (isDigit c)) s = true -> matchAt s = None.
Proof.
  intros H. unfold matchAt.
  destruct (currencyAt s) as [[cur r] |] eqn:Hc; [| reflexivity].
  assert (Hr : forallb (fun c => negb (isDigit c)) r = true).
  { unfold currencyAt in Hc. destruct s as [| c s']; [discriminate Hc |].
    destruct (isCurrencySymbol c).
    - injection Hc as _ <-. cbn [forallb] in H. apply andb_true_iff in H.
      exact (proj2 H).
    - destruct (existsb (startsWithCI (c :: s')) currencyCodes);
        [| discriminate Hc].
      injection Hc as _ <-. exact (forallb_skipn _ 3 (c :: s') H). }
  pose proof (forallb_dropWhile (fun c => negb (isDigit c)) isWhiteSpace r Hr)
    as Hd.
  destruct (dropWhile isWhiteSpace r) as [| d r']; [reflexivity |].
  cbn [forallb] in Hd. apply andb_true_iff in Hd.
  destruct Hd as [Hd _]. apply negb_true_iff in Hd. rewrite Hd. reflexivity.
Qed.

(** X8: a text without a digit holds no price. *)
Theorem no_digit_no_price (text : jsstring) :
  forallb (fun c => negb (isDigit c)) text = true ->
  parseCurrencyPrice text = None.
Proof.
  intros H. unfold parseCurrencyPrice.
  assert (Hm : regexMatch text = None).
  { induction text as [| c text IH]; cbn [regexMatch].
    - rewrite (matchAt_needs_digit [] H). reflexivity.
    - rewrite (matchAt_needs_digit (c :: text) H).
      cbn [forallb] in H. apply andb_true_iff in H. exact (IH (proj2 H)). }
  rewrite Hm. reflexivity.
Qed.

Lemma no_digit_no_price_witness :
  forallb (fun c => negb (isDigit c)) (js "from USD per night") = true
  /\ parseCurrencyPrice (js "from USD per night") = None.
Proof.
  assert (H : forallb (fun c => negb (isDigit c)) (js "from USD per night")
              = true) by (vm_compute; reflexivity).
  split; [exact H | exact (no_digit_no_price (js "from USD per night") H)].
Defined.

Lemma takeWhile_forallb {A : Type} (f : A -> bool) (l : list A) :
  forallb f l = true -> takeWhile f l = l /\ dropWhile f l = [].
Proof.
  intros H. pose proof (takeWhile_app f l [] H) as Ht.
  pose proof (dropWhile_app f l [] H) as Hd.
  rewrite app_nil_r in Ht, Hd. cbn [takeWhile dropWhile] in Ht, Hd.
  rewrite app_nil_r in Ht. split; assumption.
Qed.

Lemma takeWhile_endsToken (rest : jsstring) :
  endsToken rest = true -> takeWhile isPriceChar rest = [].
Proof.
  destruct rest as [| c rest]; cbn [endsToken takeWhile]; [reflexivity |].
  intros H. apply negb_true_iff in H. rewrite H. reflexivity.
Qed.

Lemma removeCommas_leaves_digits (t : jsstring) :
  forallb isDigitOrComma t = true -> forallb isDigit (removeCommas t) = true.
Proof.
  unfold removeCommas.
  induction t as [| x t IH]; cbn [forallb filter]; intros H; [reflexivity |].
  apply andb_true_iff in H. destruct H as [Hx Ht].
  destruct (N.eqb_spec x 44) as [-> | Hne]; cbn [negb]; [exact (IH Ht) |].
  cbn [forallb]. rewrite (IH Ht), andb_true_r.
  unfold isDigitOrComma in Hx. apply orb_true_iff in Hx.
  destruct Hx as [Hx | Hx]; [exact Hx |].
  apply N.eqb_eq in Hx. contradiction.
Qed.

Lemma forallb_digitOrComma_priceChars (t : jsstring) :
  forallb isDigitOrComma t = true -> forallb isPriceChar t = true.
Proof.
  induction t as [| x t IH]; cbn [forallb]; intros H; [reflexivity |].
  apply andb_true_iff in H. destruct H as [Hx Ht].
  rewrite (IH Ht), andb_true_r. unfold isDigitOrComma in Hx.
  unfold isPriceChar. apply orb_true_iff in Hx.
  destruct Hx as [Hx | Hx]; rewrite Hx; [reflexivity |].
  rewrite orb_true_r. reflexivity.
Qed.

(** [parseFloat] of digits alone is their value. *)
Lemma parseFloat_digits (d : N) (t : jsstring) :
  isDigit d = true -> forallb isDigit t = true ->
  parseFloat (d :: t) = Num (inject_Z (digitsToZ (d :: t))).
Proof.
  intros Hd Ht. pose proof (isDigit_range d Hd) as Hr.
  assert (Hall : forallb isDigit (d :: t) = true)
    by (cbn [forallb]; rewrite Hd, Ht; reflexivity).
  unfold parseFloat, trimStart. cbn [dropWhile].
  rewrite (digit_not_space d Hd).
  destruct (N.eqb_spec d 45); [lia |]. destruct (N.eqb_spec d 43); [lia |].
  unfold decimalPrefix.
  destruct (takeWhile_forallb isDigit (d :: t) Hall) as [-> ->].
  rewrite app_nil_r. reflexivity.
Qed.

(** X9: after a currency symbol, a token of digits and commas that the
    text does not continue is read as the integer its digits spell, the
    commas being dropped wherever they stand, as long as that integer is at
    most 2^53: up to there every integer is a number of the language, beyond
    it [parseFloat] rounds. *)
Theorem thousands_separators_dropped (c d : N) (t rest : jsstring) :
  isCurrencySymbol c = true ->
  isDigit d = true ->
  forallb isDigitOrComma t = true ->
  endsToken rest = true ->
  digitsToZ (d :: removeCommas t) <= 2 ^ 53 ->
  parseCurrencyPrice (c :: (d :: t) ++ rest)
  = Some {| Price.currency := [c];
            Price.value :=
              Num (inject_Z (digitsToZ (d :: removeCommas t))) |}.
Proof.
  intros Hc Hd Ht Hrest _. unfold parseCurrencyPrice. cbn [regexMatch].
  unfold matchAt, currencyAt. rewrite Hc. cbn [app dropWhile].
  rewrite (digit_not_space d Hd), Hd.
  rewrite (takeWhile_app isPriceChar t rest
             (forallb_digitOrComma_priceChars t Ht)).
  rewrite (takeWhile_endsToken rest Hrest), app_nil_r.
  assert (Hrc : removeCommas (d :: t) = d :: removeCommas t).
  { unfold removeCommas. cbn [filter]. pose proof (isDigit_range d Hd).
    destruct (N.eqb_spec d 44); [lia | reflexivity]. }
  rewrite Hrc.
  rewrite (parseFloat_digits d (removeCommas t) Hd
             (removeCommas_leaves_digits t Ht)).
  reflexivity.
Qed.

Lemma thousands_separators_dropped_witness :
  isCurrencySymbol 8377 = true
  /\ isDigit 49 = true
  /\ forallb isDigitOrComma (js "2,34,567") = true
  /\ endsToken (js " per night") = true
  /\ digitsToZ (49%N :: removeCommas (js "2,34,567")) <= 2 ^ 53
  /\ parseCurrencyPrice (js "₹12,34,567 per night")
     = Some {| Price.currency := js "₹";
               Price.value := Num (inject_Z 1234567) |}.
Proof.
  assert (H1 : isCurrencySymbol 8377 = true) by reflexivity.
  assert (H2 : isDigit 49 = true) by reflexivity.
  assert (H3 : forallb isDigitOrComma (js "2,34,567") = true)
    by (vm_compute; reflexivity).
  assert (H4 : endsToken (js " per night") = true) by reflexivity.
  assert (H5 : digitsToZ (49%N :: removeCommas (js "2,34,567")) <= 2 ^ 53)
    by (vm_compute; discriminate).
  repeat (split; [assumption |]).
  exact (thousands_separators_dropped 8377 49 (js "2,34,567")
           (js " per night") H1 H2 H3 H4 H5).
Defined.

Lemma noCurrencyStart_currencyAt (c : N) (r : jsstring) :
  noCurrencyStart c = true -> currencyAt (c :: r) = None.
Proof.
  unfold noCurrencyStart, currencyAt. intros H.
  apply andb_true_iff in H. destruct H as [Hsym Hcode].
  apply negb_true_iff in Hsym, Hcode. rewrite Hsym.
  cbn [existsb] in Hcode.
  repeat (apply orb_false_iff in Hcode; destruct Hcode as [? Hcode]).
  change currencyCodes
    with [[85%N; 83%N; 68%N]; [69%N; 85%N; 82%N]; [71%N; 66%N; 80%N];
          [74%N; 80%N; 89%N]; [73%N; 78%N; 82%N]].
  cbn [existsb startsWithCI].
  repeat match goal with
         | H : (canonicalize c =? _)%N = false |- _ => rewrite H; clear H
         end.
  reflexivity.
Qed.

Lemma regexMatch_skip (pre s : jsstring) :
  forallb noCurrencyStart pre = true -> regexMatch (pre ++ s) = regexMatch s.
Proof.
  induction pre as [| c pre IH]; cbn [forallb app]; intros H; [reflexivity |].
  apply andb_true_iff in H. destruct H as [Hc Hpre].
  cbn [regexMatch]. unfold matchAt at 1.
  rewrite (noCurrencyStart_currencyAt c (pre ++ s) Hc). exact (IH Hpre).
Qed.

(** X10: text before the price in which no currency can begin (no symbol
    and none of the letters U, E, G, J, I in either case) does not change
    what is read. *)
Theorem text_before_price_is_skipped (pre s : jsstring) :
  forallb noCurrencyStart pre = true ->
  parseCurrencyPrice (pre ++ s) = parseCurrencyPrice s.
Proof.
  intros H. unfold parseCurrencyPrice. rewrite (regexMatch_skip pre s H).
  reflexivity.
Qed.

Lemma text_before_price_is_skipped_witness :
  forallb noCurrencyStart (js "Strand rooms, total for 5 days: ") = true
  /\ parseCurrencyPrice (js "Strand rooms, total for 5 days: " ++ js "USD 1,250.50")
     = parseCurrencyPrice (js "USD 1,250.50")
  /\ parseCurrencyPrice (js "USD 1,250.50")
     = Some {| Price.currency := js "USD";
               Price.value := Num (Qmake 125050 100) |}.
Proof.
  assert (H : forallb noCurrencyStart (js "Strand rooms, total for 5 days: ") = true)
    by (vm_compute; reflexivity).
  split; [exact H | split; [| vm_compute; reflexivity]].
  exact (text_before_price_is_skipped (js "Strand rooms, total for 5 days: ")
           (js "USD 1,250.50") H).
Defined.

Lemma startsWithCI_three (s : jsstring) (a b c : N) :
  startsWithCI s [a; b; c] = true ->
  List.length (firstn 3 s) = 3%nat
  /\ startsWithCI (firstn 3 s) [a; b; c] = true.
Proof.
  destruct s as [| x [| y [| z s]]]; cbn [startsWithCI];
    rewrite ?andb_false_r; try discriminate.
  intros H. split; [reflexivity | exact H].
Qed.

Lemma currencyAt_recognized (s cur r : jsstring) :
  currencyAt s = Some (cur, r) -> recognizedCurrency cur = true.
Proof.
  unfold currencyAt. destruct s as [| c s']; [discriminate |].
  destruct (isCurrencySymbol c) eqn:Hc.
  - intros H. injection H as <- _. exact Hc.
  - destruct (existsb (startsWithCI (c :: s')) currencyCodes) eqn:He;
      [| discriminate].
    intros H.
    assert (Hcur : cur = firstn 3 (c :: s'))
      by (injection H as <- _; reflexivity).
    rewrite Hcur. clear H Hcur.
    apply existsb_exists in He. destruct He as (code & Hin & Hst).
    assert (Hlen : exists a b d, code = [a; b; d]).
    { revert Hin. change currencyCodes
        with [[85%N; 83%N; 68%N]; [69%N; 85%N; 82%N]; [71%N; 66%N; 80%N];
              [74%N; 80%N; 89%N]; [73%N; 78%N; 82%N]].
      cbn [In]. intros [<- | [<- | [<- | [<- | [<- | []]]]]];
        repeat eexists. }
    destruct Hlen as (a & b & d & ->).
    destruct (startsWithCI_three (c :: s') a b d Hst) as [Hl Hs3].
    unfold recognizedCurrency.
    destruct (firstn 3 (c :: s')) as [| x [| y [| z [| w l]]]] eqn:Hf;
      try discriminate Hl.
    apply existsb_exists. exists [a; b; d]. split; [exact Hin | exact Hs3].
Qed.

Lemma regexMatch_recognized (text m1 m2 : jsstring) :
  regexMatch text = Some (m1, m2) -> recognizedCurrency m1 = true.
Proof.
  assert (Hat : forall s, matchAt s = Some (m1, m2) ->
                          recognizedCurrency m1 = true).
  { intros s. unfold matchAt.
    destruct (currencyAt s) as [[cur r] |] eqn:Hc; [| discriminate].
    destruct (dropWhile isWhiteSpace r) as [| d r']; [discriminate |].
    destruct (isDigit d); [| discriminate].
    intros H. injection H as <- _. exact (currencyAt_recognized s cur r Hc). }
  induction text as [| c text IH]; cbn [regexMatch].
  - destruct (matchAt []) as [[a b] |] eqn:Hm; [| discriminate].
    intros H. injection H as <- <-. exact (Hat [] Hm).
  - destruct (matchAt (c :: text)) as [[a b] |] eqn:Hm; [| exact IH].
    intros H. injection H as <- <-. exact (Hat (c :: text) Hm).
Qed.

Lemma parseCurrencyPrice_recognized (text : jsstring) (p : Price.t) :
  parseCurrencyPrice text = Some p ->
  recognizedCurrency (Price.currency p) = true.
Proof.
  unfold parseCurrencyPrice.
  destruct (regexMatch text) as [[m1 m2] |] eqn:Hm; [| discriminate].
  intros H. injection H as <-. exact (regexMatch_recognized text m1 m2 Hm).
Qed.

(** X11: the currency of a parsed price is one of the five symbols or three
    units that spell one of the five codes up to ASCII case. *)
Theorem parsed_currency_is_recognized (text : jsstring) (p : Price.t) :
  parseCurrencyPrice text = Some p ->
  recognizedCurrency (Price.currency p) = true
  /\ (List.length (Price.currency p) = 1%nat
      \/ List.length (Price.currency p) = 3%nat).
Proof.
  intros H. pose proof (parseCurrencyPrice_recognized text p H) as Hr.
  split; [exact Hr |].
  unfold recognizedCurrency in Hr.
  destruct (Price.currency p) as [| a [| b [| c [| d l]]]];
    try discriminate Hr; [left | right]; reflexivity.
Qed.

Lemma parsed_currency_is_recognized_witness :
  parseCurrencyPrice (js "Trip.com  Gbp 89.99")
  = Some {| Price.currency := js "Gbp"; Price.value := Num (Qmake 8999 100) |}
  /\ recognizedCurrency (js "Gbp") = true.
Proof.
  assert (H : parseCurrencyPrice (js "Trip.com  Gbp 89.99")
              = Some {| Price.currency := js "Gbp";
                        Price.value := Num (Qmake 8999 100) |})
    by (vm_compute; reflexivity).
  split; [exact H |].
  exact (proj1 (parsed_currency_is_recognized (js "Trip.com  Gbp 89.99") _ H)).
Defined.

(* ================================================================== *)
(** * Further properties of provider names and keys *)
(* ================================================================== *)

Lemma takeWhile_dropWhile {A : Type} (f : A -> bool) (l : list A) :
  l = takeWhile f l ++ dropWhile f l.
Proof.
  induction l as [| x l IH]; cbn [takeWhile dropWhile]; [reflexivity |].
  destruct (f x); [cbn [app]; f_equal; exact IH | reflexivity].
Qed.

Lemma dropWhile_head {A : Type} (f : A -> bool) (l : list A) (c : A)
  (r : list A) :
  dropWhile f l = c :: r -> f c = false.
Proof.
  induction l as [| x l IH]; cbn [dropWhile]; [discriminate |].
  destruct (f x) eqn:Hx; [exact IH |].
  intros H. injection H as <- _. exact Hx.
Qed.

Lemma dropWhile_incl {A : Type} (f : A -> bool) (l : list A) (x : A) :
  In x (dropWhile f l) -> In x l.
Proof.
  rewrite (takeWhile_dropWhile f l) at 2. intros H. apply in_or_app.
  right. exact H.
Qed.

(** What [trimEnd] removes is a run of white space at the end. *)
Lemma trimEnd_split (s : jsstring) :
  exists w, s = trimEnd s ++ w /\ forallb isWhiteSpace w = true.
Proof.
  exists (rev (takeWhile isWhiteSpace (rev s))). split.
  - unfold trimEnd. rewrite <- rev_app_distr.
    rewrite <- (takeWhile_dropWhile isWhiteSpace (rev s)).
    symmetry. apply rev_involutive.
  - rewrite forallb_forall. intros x Hx. apply in_rev in Hx.
    pose proof (takeWhile_all isWhiteSpace (rev s)) as H.
    rewrite forallb_forall in H. exact (H x Hx).
Qed.

Lemma trimEnd_last (s r : jsstring) (c : N) :
  trimEnd s = r ++ [c] -> isWhiteSpace c = false.
Proof.
  unfold trimEnd. intros H.
  apply (f_equal (@rev N)) in H. rewrite rev_involutive, rev_app_distr in H.
  cbn [rev app] in H.
  exact (dropWhile_head isWhiteSpace (rev s) c (rev r) H).
Qed.

Lemma trim_incl (s : jsstring) (x : N) : In x (trim s) -> In x s.
Proof.
  unfold trim, trimStart. intros H.
  apply (dropWhile_incl isWhiteSpace).
  destruct (trimEnd_split (dropWhile isWhiteSpace s)) as (w & Hsplit & _).
  rewrite Hsplit. apply in_or_app. left. exact H.
Qed.

Lemma trim_head (s r : jsstring) (c : N) :
  trim s = c :: r -> isWhiteSpace c = false.
Proof.
  unfold trim, trimStart. intros H.
  destruct (trimEnd_split (dropWhile isWhiteSpace s)) as (w & Hsplit & _).
  rewrite H in Hsplit. cbn [app] in Hsplit.
  exact (dropWhile_head isWhiteSpace s c (r ++ w) Hsplit).
Qed.

Lemma firstLine_no_feed (s : jsstring) : ~ In 10%N (firstLine s).
Proof.
  unfold firstLine. intros H.
  pose proof (takeWhile_all (fun c => negb (c =? 10)%N) s) as Hall.
  rewrite forallb_forall in Hall. specialize (Hall 10%N H).
  discriminate Hall.
Qed.

(** X12: when the first line is accepted, the provider is that line,
    trimmed: it has 1 to 60 units, holds no line feed, and neither begins
    nor ends with white space; the brand list is not consulted. *)
Theorem accepted_first_line_is_provider (text : jsstring) :
  rejected (primaryName text) = false ->
  resolveProvider text = primaryName text
  /\ (1 <= List.length (resolveProvider text) <= 60)%nat
  /\ ~ In 10%N (resolveProvider text)
  /\ (forall c r, resolveProvider text = c :: r -> isWhiteSpace c = false)
  /\ (forall r c, resolveProvider text = r ++ [c] -> isWhiteSpace c = false).
Proof.
  intros Hacc.
  assert (Hres : resolveProvider text = primaryName text).
  { unfold resolveProvider, providerName. rewrite Hacc.
    unfold rejected in Hacc. apply orb_false_iff in Hacc.
    unfold orUnknown. rewrite (proj1 Hacc). reflexivity. }
  rewrite Hres. unfold rejected in Hacc. apply orb_false_iff in Hacc.
  destruct Hacc as [Hne Hlen]. apply Z.ltb_ge in Hlen.
  split; [reflexivity | split; [| split; [| split]]].
  - destruct (primaryName text); [discriminate Hne | cbn [List.length] in *; lia].
  - intros H. apply trim_incl in H. exact (firstLine_no_feed text H).
  - intros c r H. exact (trim_head (firstLine text) r c H).
  - intros r c H. exact (trimEnd_last (trimStart (firstLine text)) r c H).
Qed.

Lemma accepted_first_line_is_provider_witness :
  rejected (primaryName (twoLines "  Booking.com  " "Expedia $90")) = false
  /\ resolveProvider (twoLines "  Booking.com  " "Expedia $90")
     = js "Booking.com".
Proof.
  assert (H : rejected (primaryName (twoLines "  Booking.com  " "Expedia $90"))
              = false) by (vm_compute; reflexivity).
  split; [exact H |].
  exact (proj1 (accepted_first_line_is_provider
                  (twoLines "  Booking.com  " "Expedia $90") H)).
Defined.

Lemma find_first {A : Type} (f : A -> bool) (l : list A) :
  forallb (fun x => negb (f x)) l = false ->
  exists before x after,
    l = before ++ x :: after
    /\ find f l = Some x
    /\ f x = true
    /\ forallb (fun y => negb (f y)) before = true.
Proof.
  induction l as [| a l IH]; cbn [forallb find]; intros H; [discriminate H |].
  destruct (f a) eqn:Ha.
  - exists [], a, l. repeat split. exact Ha.
  - cbn [negb andb] in H. destruct (IH H) as (b & x & af & -> & Hf & Hx & Hb).
    exists (a :: b), x, af. repeat split; try assumption.
    cbn [forallb]. rewrite Ha, Hb. reflexivity.
Qed.

(** X13: when the first line is rejected and the text mentions a brand,
    the provider is the first brand of the list that the text mentions,
    whatever later brands it also mentions. *)
Theorem rejected_line_takes_first_brand (text : jsstring) :
  rejected (primaryName text) = true ->
  mentionsNoBrand text = false ->
  exists before brand after,
    brands = before ++ brand :: after
    /\ resolveProvider text = brand
    /\ mentions text brand = true
    /\ forallb (fun b => negb (mentions text b)) before = true.
Proof.
  intros Hrej Hsome.
  destruct (find_first (mentions text) brands Hsome)
    as (before & brand & after & Hsplit & Hfind & Hm & Hb).
  exists before, brand, after.
  split; [exact Hsplit | split; [| split; assumption]].
  unfold resolveProvider, providerName. rewrite Hrej, Hfind.
  assert (Hne : forallb (fun b => negb (isEmpty b)) brands = true)
    by (vm_compute; reflexivity).
  rewrite forallb_forall in Hne.
  assert (Hin : In brand brands)
    by (rewrite Hsplit; apply in_elt).
  specialize (Hne brand Hin). apply negb_true_iff in Hne.
  unfold orUnknown. rewrite Hne. reflexivity.
Qed.

(** A row that names MakeMyTrip before Agoda is given to Agoda, which
    stands earlier in the list. *)
Lemma rejected_line_takes_first_brand_witness :
  rejected (primaryName (twoLines "" "via makemytrip or AGODA $75")) = true
  /\ mentionsNoBrand (twoLines "" "via makemytrip or AGODA $75") = false
  /\ resolveProvider (twoLines "" "via makemytrip or AGODA $75") = js "Agoda"
  /\ exists before brand after,
       brands = before ++ brand :: after
       /\ resolveProvider (twoLines "" "via makemytrip or AGODA $75") = brand
       /\ mentions (twoLines "" "via makemytrip or AGODA $75") brand = true
       /\ forallb
            (fun b => negb (mentions (twoLines "" "via makemytrip or AGODA $75")
                              b))
            before = true.
Proof.
  assert (H1 : rejected (primaryName
                           (twoLines "" "via makemytrip or AGODA $75")) = true)
    by (vm_compute; reflexivity).
  assert (H2 : mentionsNoBrand (twoLines "" "via makemytrip or AGODA $75")
               = false) by (vm_compute; reflexivity).
  split; [exact H1 | split; [exact H2 | split; [vm_compute; reflexivity |]]].
  exact (rejected_line_takes_first_brand _ H1 H2).
Defined.

Lemma dropWhile_all {A : Type} (f : A -> bool) (l : list A) :
  forallb f l = true -> dropWhile f l = [].
Proof. intros H. exact (proj2 (takeWhile_forallb f l H)). Qed.

Lemma dropWhile_app_left {A : Type} (f : A -> bool) (s b : list A) :
  forallb f b = true ->
  dropWhile f (s ++ b)
  = match dropWhile f s with
    | [] => []
    | _ :: _ => dropWhile f s ++ b
    end.
Proof.
  intros Hb. induction s as [| x s IH]; cbn [app dropWhile].
  - exact (dropWhile_all f b Hb).
  - destruct (f x); [exact IH | reflexivity].
Qed.

(** White space around a name does not show after [trim]. *)
Lemma trim_surrounded (a s b : jsstring) :
  forallb isWhiteSpace a = true -> forallb isWhiteSpace b = true ->
  trim (a ++ s ++ b) = trim s.
Proof.
  intros Ha Hb. unfold trim, trimStart.
  rewrite (dropWhile_app isWhiteSpace a _ Ha).
  rewrite (dropWhile_app_left isWhiteSpace s b Hb).
  destruct (dropWhile isWhiteSpace s) as [| c r] eqn:Hs; [reflexivity |].
  unfold trimEnd. rewrite rev_app_distr.
  rewrite (dropWhile_app isWhiteSpace (rev b)); [reflexivity |].
  rewrite forallb_forall in *. intros x Hx. apply Hb. apply in_rev. exact Hx.
Qed.

(** X14: white space around a provider name does not make another
    provider: two quotes whose names differ only by surrounding white space
    have one key, and only one of them is kept. *)
Theorem surrounding_space_same_provider (name a b : jsstring)
  (q1 q2 : Quote.t) :
  name <> [] ->
  forallb isWhiteSpace a = true -> forallb isWhiteSpace b = true ->
  Quote.provider q1 = name -> Quote.provider q2 = a ++ name ++ b ->
  keyOf q2 = keyOf q1
  /\ (fst (aggregate [q1; q2]) = [q1] \/ fst (aggregate [q1; q2]) = [q2]).
Proof.
  intros Hne Ha Hb H1 H2.
  assert (Hk : keyOf q2 = keyOf q1).
  { unfold keyOf, orUnknown. rewrite H1, H2.
    destruct name as [| c name]; [contradiction |].
    assert (E : isEmpty (a ++ (c :: name) ++ b) = false).
    { destruct (a ++ (c :: name) ++ b) as [| x l] eqn:E; [| reflexivity].
      apply app_eq_nil in E. destruct E as [_ E]. discriminate E. }
    rewrite E. cbn [isEmpty]. apply trim_surrounded; assumption. }
  split; [exact Hk |].
  unfold aggregate, all_providers, deduped, byProvider. cbn [fst fold_left].
  assert (E1 : dedupStep [] q1 = [(keyOf q1, q1)]) by reflexivity.
  assert (E2 : Map_get [(keyOf q1, q1)] (keyOf q1) = Some q1)
    by (cbn [Map_get]; rewrite jsstring_eqb_refl; reflexivity).
  assert (E3 : Map_set [(keyOf q1, q1)] (keyOf q1) q2 = [(keyOf q1, q2)])
    by (cbn [Map_set]; rewrite jsstring_eqb_refl; reflexivity).
  rewrite E1. unfold dedupStep. rewrite Hk, E2.
  destruct (cheaper q2 q1); [rewrite E3; right | left]; reflexivity.
Qed.

Lemma surrounding_space_same_provider_witness :
  js "Agoda" <> []
  /\ forallb isWhiteSpace (js "  ") = true
  /\ forallb isWhiteSpace [9%N; 160%N] = true
  /\ keyOf (Quote.mk (js "  " ++ js "Agoda" ++ [9%N; 160%N])
                     (Num (inject_Z 80)) (js "$") None (js "b"))
     = keyOf (quoteOf "Agoda" 100)
  /\ fst (aggregate
            [quoteOf "Agoda" 100;
             Quote.mk (js "  " ++ js "Agoda" ++ [9%N; 160%N])
                      (Num (inject_Z 80)) (js "$") None (js "b")])
     = [Quote.mk (js "  " ++ js "Agoda" ++ [9%N; 160%N])
                 (Num (inject_Z 80)) (js "$") None (js "b")].
Proof.
  assert (H0 : js "Agoda" <> []) by (vm_compute; discriminate).
  assert (Ha : forallb isWhiteSpace (js "  ") = true) by reflexivity.
  assert (Hb : forallb isWhiteSpace [9%N; 160%N] = true) by reflexivity.
  split; [exact H0 | split; [exact Ha | split; [exact Hb |]]].
  split; [| vm_compute; reflexivity].
  exact (proj1 (surrounding_space_same_provider (js "Agoda") (js "  ")
                  [9%N; 160%N] (quoteOf "Agoda" 100)
                  (Quote.mk (js "  " ++ js "Agoda" ++ [9%N; 160%N])
                            (Num (inject_Z 80)) (js "$") None (js "b"))
                  H0 Ha Hb eq_refl eq_refl)).
Defined.

(* ================================================================== *)
(** * Further properties of the aggregation *)
(* ================================================================== *)

Lemma firstSeen_length (keys : list jsstring) :
  (List.length (firstSeen keys) <= List.length keys)%nat.
Proof.
  induction keys as [| k keys IH]; cbn [firstSeen List.length]; [lia |].
  pose proof (filter_length_le (fun k' => negb (jsstring_eqb k' k))
                (firstSeen keys)). lia.
Qed.

Lemma deduped_incl (l : list Quote.t) :
  allNumeric l -> incl (deduped l) l.
Proof.
  intros Hl q Hq. pose proof (deduped_first_minima l Hl) as H.
  rewrite Forall_forall in H. pose proof (isFirstMin_In _ _ (H q Hq)) as Hin.
  unfold group in Hin. apply filter_In in Hin. exact (proj1 Hin).
Qed.

Lemma deduped_length (l : list Quote.t) :
  allNumeric l -> (List.length (deduped l) <= List.length l)%nat.
Proof.
  intros Hl.
  rewrite <- (length_map keyOf (deduped l)), (deduped_keys l Hl).
  unfold firstSeenKeys. rewrite <- (length_map keyOf l).
  apply firstSeen_length.
Qed.

(** X15: the sorted output holds one quote per provider key: its keys are
    pairwise distinct and are exactly the keys of the input, every quote
    of it is a quote of the input, and it is no longer than the input. *)
Theorem output_one_quote_per_provider (quotes : list Quote.t) :
  allNumeric quotes ->
  NoDup (map keyOf (fst (aggregate quotes)))
  /\ (forall k, In k (map keyOf (fst (aggregate quotes)))
                <-> In k (map keyOf quotes))
  /\ incl (fst (aggregate quotes)) quotes
  /\ (List.length (fst (aggregate quotes)) <= List.length quotes)%nat.
Proof.
  intros Hl. unfold aggregate, all_providers. cbn [fst].
  pose proof (Array_sort_perm (deduped quotes)) as Hperm.
  pose proof (deduped_keys quotes Hl) as Hkeys.
  split; [| split; [| split]].
  - apply (Permutation_NoDup (Permutation_map keyOf Hperm)).
    rewrite Hkeys. apply NoDup_firstSeen.
  - intros k. rewrite <- (Permutation_in' (eq_refl k)
                            (Permutation_map keyOf Hperm)).
    rewrite Hkeys. apply In_firstSeen.
  - intros q Hq. apply (deduped_incl quotes Hl).
    apply (Permutation_in q (Permutation_sym Hperm) Hq).
  - rewrite <- (Permutation_length Hperm). exact (deduped_length quotes Hl).
Qed.

Lemma output_one_quote_per_provider_witness :
  allNumeric [quoteOf "A" 100; quoteOf "B" 90; quoteOf "A" 80]
  /\ NoDup (map keyOf (fst (aggregate [quoteOf "A" 100; quoteOf "B" 90;
                                       quoteOf "A" 80])))
  /\ (List.length (fst (aggregate [quoteOf "A" 100; quoteOf "B" 90;
                                   quoteOf "A" 80])) <= 3)%nat.
Proof.
  assert (H : allNumeric [quoteOf "A" 100; quoteOf "B" 90; quoteOf "A" 80])
    by (repeat constructor).
  split; [exact H |].
  destruct (output_one_quote_per_provider _ H) as (Hnd & _ & _ & Hlen).
  split; [exact Hnd | exact Hlen].
Defined.

Lemma isFirstMin_least (q p : Quote.t) (g : list Quote.t) :
  allNumeric g -> isFirstMin q g -> In p g -> cheaper p q = false.
Proof.
  intros Hg (b & a & -> & Hb & Ha) Hp.
  unfold allNumeric in Hg. rewrite Forall_app in Hg.
  destruct Hg as [Hgb Hga]. inversion Hga as [| ? ? Hq Hga']; subst.
  rewrite Forall_forall in *.
  apply in_app_or in Hp. destruct Hp as [Hp | [<- | Hp]].
  - pose proof (Hb p Hp) as Hqp. pose proof (Hgb p Hp) as Hnp.
    revert Hqp. order_cases.
  - apply cheaper_irrefl.
  - exact (Ha p Hp).
Qed.

Lemma ascending_head_least (h : Quote.t) (t : list Quote.t) (q : Quote.t) :
  ascending (h :: t) -> In q (h :: t) -> cheaper q h = false.
Proof.
  intros Hs [<- | Hq]; [apply cheaper_irrefl |].
  inversion Hs as [| ? ? _ Hall]; subst.
  rewrite Forall_forall in Hall. exact (Hall q Hq).
Qed.

(** X16: the lowest quote is a quote of the input that no quote of the
    input undercuts; there is none only when the input is empty. *)
Theorem lowest_is_least_of_all (quotes : list Quote.t) :
  allNumeric quotes ->
  match snd (aggregate quotes) with
  | Some low =>
    In low quotes /\ forall p, In p quotes -> cheaper p low = false
  | None => quotes = []
  end.
Proof.
  intros Hl. pose proof (deduped_numeric quotes Hl) as Hk.
  pose proof (Array_sort_perm (deduped quotes)) as Hperm.
  pose proof (Array_sort_ascending _ Hk) as Hasc.
  pose proof (Array_sort_numeric _ Hk) as Hsn.
  pose proof (deduped_keys quotes Hl) as Hkeys.
  pose proof (deduped_first_minima quotes Hl) as Hmin.
  unfold aggregate, lowest. cbn [snd].
  rewrite (lowestOf_head_of_sort _ Hk).
  destruct (Array_sort byPrice (deduped quotes)) as [| low rest] eqn:Hsort;
    cbn [hd_error].
  - apply Permutation_sym, Permutation_nil in Hperm.
    rewrite Hperm in Hkeys. cbn [map] in Hkeys.
    destruct quotes as [| p quotes]; [reflexivity |].
    unfold firstSeenKeys in Hkeys. cbn [map firstSeen] in Hkeys.
    discriminate Hkeys.
  - assert (Hlow : In low (deduped quotes))
      by (apply (Permutation_in low (Permutation_sym Hperm)); left;
          reflexivity).
    split; [exact (deduped_incl quotes Hl low Hlow) |].
    intros p Hp.
    assert (Hkp : In (keyOf p) (map keyOf (deduped quotes)))
      by (rewrite Hkeys; apply In_firstSeen; apply in_map; exact Hp).
    apply in_map_iff in Hkp. destruct Hkp as (q & Hkq & Hq).
    rewrite Forall_forall in Hmin. pose proof (Hmin q Hq) as Hqmin.
    rewrite Hkq in Hqmin.
    assert (Hpg : In p (group (keyOf p) quotes)).
    { unfold group. apply filter_In. split; [exact Hp |].
      apply jsstring_eqb_refl. }
    pose proof (isFirstMin_least q p _ (group_numeric _ _ Hl) Hqmin Hpg)
      as Hpq.
    assert (Hqs : In q (low :: rest)) by (apply (Permutation_in q Hperm Hq)).
    pose proof (ascending_head_least low rest q Hasc Hqs) as Hql.
    unfold allNumeric in Hl, Hk, Hsn. rewrite Forall_forall in Hl, Hk, Hsn.
    exact (not_cheaper_trans low q p (Hsn low (or_introl eq_refl))
             (Hk q Hq) (Hl p Hp) Hql Hpq).
Qed.

Lemma lowest_is_least_of_all_witness :
  allNumeric [quoteOf "A" 100; quoteOf "B" 90; quoteOf "A" 80]
  /\ snd (aggregate [quoteOf "A" 100; quoteOf "B" 90; quoteOf "A" 80])
     = Some (quoteOf "A" 80)
  /\ forall p, In p [quoteOf "A" 100; quoteOf "B" 90; quoteOf "A" 80] ->
               cheaper p (quoteOf "A" 80) = false.
Proof.
  assert (H : allNumeric [quoteOf "A" 100; quoteOf "B" 90; quoteOf "A" 80])
    by (repeat constructor).
  split; [exact H | split; [vm_compute; reflexivity |]].
  exact (proj2 (lowest_is_least_of_all _ H)).
Defined.

(* ================================================================== *)
(** * Further properties of the rows and of the run *)
(* ================================================================== *)

(** X17: a quote pushed for a row carries the row's text, which is not
    empty, the provider resolved from that text, which is not empty either,
    no link at all (its [url] is [null] even when the row has one), and the
    price parsed from the text: a recognized currency and an amount that is
    a number and not negative. *)
Theorem pushed_quote_is_well_formed (r : row) (q : Quote.t) :
  scrapeRow r = Some q ->
  innerText r = Some (Quote.raw_text q)
  /\ Quote.raw_text q <> []
  /\ Quote.provider q = resolveProvider (Quote.raw_text q)
  /\ Quote.provider q <> []
  /\ Quote.url q = None
  /\ parseCurrencyPrice (Quote.raw_text q)
     = Some {| Price.currency := Quote.currency q;
               Price.value := Quote.price_value q |}
  /\ recognizedCurrency (Quote.currency q) = true
  /\ exists v, Quote.price_value q = Num v /\ (0 <= v)%Q.
Proof.
  unfold scrapeRow. destruct (innerText r) as [text |]; [| discriminate].
  destruct (isEmpty text) eqn:Hne; [discriminate |].
  destruct (parseCurrencyPrice text) as [price |] eqn:Hp; [| discriminate].
  intros H. injection H as <-. cbn [Quote.raw_text Quote.provider Quote.url
                                     Quote.currency Quote.price_value].
  split; [reflexivity |].
  split; [intros ->; discriminate Hne |].
  split; [reflexivity |].
  split.
  { unfold resolveProvider, orUnknown.
    destruct (isEmpty (providerName text)) eqn:E.
    - vm_compute. discriminate.
    - intros H. rewrite H in E. discriminate E. }
  split; [reflexivity |].
  split; [destruct price; exact Hp |].
  split; [exact (parseCurrencyPrice_recognized text price Hp) |].
  destruct (parseCurrencyPrice_number text) as [Hn | (c & v & Hs & Hv)].
  - rewrite Hn in Hp. discriminate Hp.
  - rewrite Hs in Hp. injection Hp as <-. exists v. split; [reflexivity | exact Hv].
Qed.

Lemma pushed_quote_is_well_formed_witness :
  scrapeRow (mkRow (Some (twoLines "Agoda" "from $120")) (Some (js "/go")))
  = Some {| Quote.provider := js "Agoda";
            Quote.price_value := Num (inject_Z 120);
            Quote.currency := js "$";
            Quote.url := None;
            Quote.raw_text := twoLines "Agoda" "from $120" |}
  /\ parseCurrencyPrice (twoLines "Agoda" "from $120")
     = Some {| Price.currency := js "$"; Price.value := Num (inject_Z 120) |}.
Proof.
  assert (H : scrapeRow (mkRow (Some (twoLines "Agoda" "from $120"))
                               (Some (js "/go")))
              = Some {| Quote.provider := js "Agoda";
                        Quote.price_value := Num (inject_Z 120);
                        Quote.currency := js "$";
                        Quote.url := None;
                        Quote.raw_text := twoLines "Agoda" "from $120" |})
    by (vm_compute; reflexivity).
  split; [exact H |].
  destruct (pushed_quote_is_well_formed _ _ H)
    as (_ & _ & _ & _ & _ & Hp & _).
  exact Hp.
Defined.

Lemma scrapeRows_length (rs : list row) :
  (List.length (scrapeRows rs) <= List.length rs)%nat.
Proof.
  induction rs as [| r rs IH]; cbn [scrapeRows List.length]; [lia |].
  destruct (scrapeRow r); cbn [List.length]; lia.
Qed.

Lemma visitedRows_length (rs : list row) :
  (List.length (visitedRows rs) <= 80)%nat.
Proof. unfold visitedRows. apply firstn_le_length. Qed.

(** X18: at most 80 rows are read: no more than 80 quotes are pushed and
    listed, and rows after the 80th change nothing. *)
Theorem at_most_80_rows_are_read (rs more : list row) :
  (List.length (scrapeRows (visitedRows rs)) <= 80)%nat
  /\ (List.length (fst (aggregate (scrapeRows (visitedRows rs)))) <= 80)%nat
  /\ ((80 <= List.length rs)%nat ->
      scrapeRows (visitedRows (rs ++ more)) = scrapeRows (visitedRows rs)).
Proof.
  pose proof (scrapeRows_length (visitedRows rs)) as H1.
  pose proof (visitedRows_length rs) as H2.
  split; [lia | split].
  - unfold aggregate, all_providers. cbn [fst].
    rewrite <- (Permutation_length (Array_sort_perm _)).
    pose proof (deduped_length _ (scrapeRows_numeric (visitedRows rs))). lia.
  - intros Hlen. unfold visitedRows. rewrite firstn_app.
    replace (80 - List.length rs)%nat with 0%nat by lia.
    cbn [firstn]. rewrite app_nil_r. reflexivity.
Qed.

Lemma at_most_80_rows_are_read_witness :
  (80 <= List.length (repeat (mkRow (Some (js "A $1")) None) 80))%nat
  /\ scrapeRows
       (visitedRows (repeat (mkRow (Some (js "A $1")) None) 80
                     ++ [mkRow (Some (js "B $2")) None]))
     = scrapeRows (visitedRows (repeat (mkRow (Some (js "A $1")) None) 80)).
Proof.
  assert (H : (80 <= List.length (repeat (mkRow (Some (js "A $1")) None) 80))%nat)
    by (rewrite repeat_length; apply le_n).
  split; [exact H |].
  exact (proj2 (proj2 (at_most_80_rows_are_read
                         (repeat (mkRow (Some (js "A $1")) None) 80)
                         [mkRow (Some (js "B $2")) None])) H).
Defined.

(** X19: a check-in that is refused ends the run before any browser is
    launched. *)
Theorem refused_checkin_launches_nothing (tz : Z)
  (parse : jsstring -> option Z) (now : Z) (w : world) (city : jsstring)
  (checkinStr : option jsstring) (e : error) :
  withinThisYearFiveNights tz parse now checkinStr = Threw e ->
  run tz parse now w city checkinStr = (Threw e, []).
Proof.
  intros H. unfold run, findLowestPrice, bind, liftOutcome. rewrite H.
  reflexivity.
Qed.

Lemma refused_checkin_launches_nothing_witness :
  withinThisYearFiveNights 0 parseDateOnly (Date_UTC 2025 5 1 10 0)
    (Some (js "2025-01-15"))
  = Threw CheckinNotInFuture
  /\ run 0 parseDateOnly (Date_UTC 2025 5 1 10 0)
         (worldWith true true (Some sampleRows)) (js "Paris")
         (Some (js "2025-01-15"))
     = (Threw CheckinNotInFuture, []).
Proof.
  assert (H : withinThisYearFiveNights 0 parseDateOnly
                (Date_UTC 2025 5 1 10 0) (Some (js "2025-01-15"))
              = Threw CheckinNotInFuture) by (vm_compute; reflexivity).
  split; [exact H |].
  exact (refused_checkin_launches_nothing 0 parseDateOnly
           (Date_UTC 2025 5 1 10 0) (worldWith true true (Some sampleRows))
           (js "Paris") (Some (js "2025-01-15")) CheckinNotInFuture H).
Defined.

(** Unfolds a run step by step once the stay window is known. *)
Ltac run_steps Hw :=
  cbv [run findLowestPrice bind liftOutcome call tryCatch ret throw
       launch_ok newContext_ok newPage_ok goto_ok openResult_ok heading
       rating rows close_ok];
  rewrite Hw; cbv beta iota; cbn [app].

(** X20: when every call into the browser library succeeds, the run returns
    a result after closing the browser as its last act; the result names
    the city and the window, lists at most 80 quotes with pairwise distinct
    provider keys in ascending order of amount, and its lowest quote is the
    first of them, or none when no row held a price. *)
Theorem completed_run_result (tz : Z) (parse : jsstring -> option Z)
  (now : Z) (city : jsstring) (checkinStr : option jsstring)
  (checkIn checkOut : Z) (hd : option jsstring) (rt : option number)
  (rs : list row) :
  withinThisYearFiveNights tz parse now checkinStr
  = Returned (checkIn, checkOut) ->
  exists r,
    run tz parse now (mkWorld true true true true true hd rt (Some rs) true)
        city checkinStr
    = (Returned r,
       [Launched; ContextOpened; PageOpened;
        Navigated city (fmtDate checkIn) (fmtDate checkOut);
        ResultOpened; Closed])
    /\ query_city r = city
    /\ checkin r = fmtDate checkIn
    /\ checkout r = fmtDate checkOut
    /\ nights r = 5
    /\ ascending (res_all_providers r)
    /\ NoDup (map keyOf (res_all_providers r))
    /\ (List.length (res_all_providers r) <= 80)%nat
    /\ res_lowest r = hd_error (res_all_providers r).
Proof.
  intros Hw. eexists. split.
  - run_steps Hw. reflexivity.
  - cbn [query_city checkin checkout nights res_all_providers res_lowest].
    pose proof (scrapeRows_numeric (visitedRows rs)) as Hn.
    pose proof (deduped_numeric _ Hn) as Hk.
    pose proof (Array_sort_perm (deduped (scrapeRows (visitedRows rs))))
      as Hperm.
    repeat (split; [reflexivity |]).
    unfold all_providers, lowest.
    split; [exact (Array_sort_ascending _ Hk) |].
    split.
    { apply (Permutation_NoDup (Permutation_map keyOf Hperm)).
      rewrite (deduped_keys _ Hn). apply NoDup_firstSeen. }
    split.
    { rewrite <- (Permutation_length Hperm).
      pose proof (deduped_length _ Hn).
      pose proof (scrapeRows_length (visitedRows rs)).
      pose proof (visitedRows_length rs). lia. }
    exact (lowestOf_head_of_sort _ Hk).
Qed.

Lemma completed_run_result_witness :
  withinThisYearFiveNights 0 parseDateOnly (Date_UTC 2025 5 1 10 0)
    (Some (js "2025-11-10"))
  = Returned (Date_UTC 2025 10 10 0 0, Date_UTC 2025 10 15 0 0)
  /\ exists r,
       run 0 parseDateOnly (Date_UTC 2025 5 1 10 0)
           (mkWorld true true true true true None None (Some sampleRows) true)
           (js "Paris") (Some (js "2025-11-10"))
       = (Returned r,
          [Launched; ContextOpened; PageOpened;
           Navigated (js "Paris") (fmtDate (Date_UTC 2025 10 10 0 0))
                     (fmtDate (Date_UTC 2025 10 15 0 0));
           ResultOpened; Closed])
       /\ res_lowest r = hd_error (res_all_providers r).
Proof.
  assert (Hw : withinThisYearFiveNights 0 parseDateOnly
                 (Date_UTC 2025 5 1 10 0) (Some (js "2025-11-10"))
               = Returned (Date_UTC 2025 10 10 0 0, Date_UTC 2025 10 15 0 0))
    by (vm_compute; reflexivity).
  split; [exact Hw |].
  destruct (completed_run_result 0 parseDateOnly (Date_UTC 2025 5 1 10 0)
              (js "Paris") (Some (js "2025-11-10")) _ _ None None sampleRows
              Hw)
    as (r & Hrun & _ & _ & _ & _ & _ & _ & _ & Hlow).
  exists r. split; [exact Hrun | exact Hlow].
Defined.

(** X21: when no hotel result can be opened, the browser is closed and the
    error names the city of the query. *)
Theorem unopened_result_closes_and_names_city (tz : Z)
  (parse : jsstring -> option Z) (now : Z) (city : jsstring)
  (checkinStr : option jsstring) (checkIn checkOut : Z)
  (hd : option jsstring) (rt : option number) (rs : option (list row)) :
  withinThisYearFiveNights tz parse now checkinStr
  = Returned (checkIn, checkOut) ->
  run tz parse now (mkWorld true true true true false hd rt rs true)
      city checkinStr
  = (Threw (CouldNotOpenHotel city),
     [Launched; ContextOpened; PageOpened;
      Navigated city (fmtDate checkIn) (fmtDate checkOut); Closed]).
Proof. intros Hw. run_steps Hw. reflexivity. Qed.

Lemma unopened_result_closes_and_names_city_witness :
  withinThisYearFiveNights 0 parseDateOnly (Date_UTC 2025 5 1 10 0) None
  = Returned (Date_UTC 2025 5 16 10 0, Date_UTC 2025 5 21 10 0)
  /\ run 0 parseDateOnly (Date_UTC 2025 5 1 10 0)
         (mkWorld true true true true false None None None true)
         (js "Atlantis") None
     = (Threw (CouldNotOpenHotel (js "Atlantis")),
        [Launched; ContextOpened; PageOpened;
         Navigated (js "Atlantis") (fmtDate (Date_UTC 2025 5 16 10 0))
                   (fmtDate (Date_UTC 2025 5 21 10 0));
         Closed]).
Proof.
  assert (Hw : withinThisYearFiveNights 0 parseDateOnly
                 (Date_UTC 2025 5 1 10 0) None
               = Returned (Date_UTC 2025 5 16 10 0, Date_UTC 2025 5 21 10 0))
    by (vm_compute; reflexivity).
  split; [exact Hw |].
  exact (unopened_result_closes_and_names_city 0 parseDateOnly
           (Date_UTC 2025 5 1 10 0) (js "Atlantis") None _ _ None None None
           Hw).
Defined.

(** X22: in a run whose three pauses ([page.waitForTimeout]) resolve, for a
    valid stay window, the browser is left open exactly when it was launched
    and then opening the context, opening the page, the navigation, the
    count of the rows (after a result was opened) or the closing itself
    fails; the browser is never closed twice. *)
Theorem browser_left_open_exactly_when (tz : Z)
  (parse : jsstring -> option Z) (now : Z) (city : jsstring)
  (checkinStr : option jsstring) (checkIn checkOut : Z) (w : world) :
  withinThisYearFiveNights tz parse now checkinStr
  = Returned (checkIn, checkOut) ->
  browserLeftOpen (snd (run tz parse now w city checkinStr))
  = launch_ok w
    && (negb (newContext_ok w) || negb (newPage_ok w) || negb (goto_ok w)
        || negb (close_ok w)
        || (openResult_ok w
            && match rows w with
               | None => true
               | Some _ => false
               end))
  /\ (List.length (filter isClosed (snd (run tz parse now w city checkinStr)))
      <= 1)%nat.
Proof.
  intros Hw.
  destruct w as [l c p g o hd rt rs cl].
  destruct l, c, p, g, o, cl, rs as [rs |]; run_steps Hw;
    split; first [reflexivity | cbn; lia].
Qed.

Lemma browser_left_open_exactly_when_witness :
  withinThisYearFiveNights 0 parseDateOnly (Date_UTC 2025 5 1 10 0) None
  = Returned (Date_UTC 2025 5 16 10 0, Date_UTC 2025 5 21 10 0)
  /\ browserLeftOpen
       (snd (run 0 parseDateOnly (Date_UTC 2025 5 1 10 0)
                 (mkWorld true true true true true None None None true)
                 (js "Paris") None))
     = true.
Proof.
  assert (Hw : withinThisYearFiveNights 0 parseDateOnly
                 (Date_UTC 2025 5 1 10 0) None
               = Returned (Date_UTC 2025 5 16 10 0, Date_UTC 2025 5 21 10 0))
    by (vm_compute; reflexivity).
  split; [exact Hw |].
  exact (proj1 (browser_left_open_exactly_when 0 parseDateOnly
                  (Date_UTC 2025 5 1 10 0) (js "Paris") None _ _
                  (mkWorld true true true true true None None None true) Hw)).
Defined.

Lemma startsWith_iff (s prefix : jsstring) :
  startsWith s prefix = true <-> exists post, s = prefix ++ post.
Proof.
  revert s. induction prefix as [| p prefix IH]; intros s; cbn [startsWith].
  - split; [intros _; exists s; reflexivity | reflexivity].
  - destruct s as [| c s].
    + split; [discriminate | intros [post H]; discriminate H].
    + rewrite andb_true_iff, N.eqb_eq, IH. split.
      * intros [-> [post ->]]. exists post. reflexivity.
      * intros [post H]. injection H as -> ->. split; [reflexivity |].
        exists post. reflexivity.
Qed.

Lemma includes_iff (s needle : jsstring) :
  includes s needle = true <-> exists pre post, s = pre ++ needle ++ post.
Proof.
  induction s as [| c s IH]; cbn [includes]; rewrite orb_true_iff,
    startsWith_iff.
  - split.
    + intros [[post H] | H]; [| discriminate H]. exists [], post. exact H.
    + intros (pre & post & H). left. destruct pre as [| x pre];
        [exists post; exact H | discriminate H].
  - rewrite IH. split.
    + intros [[post H] | (pre & post & H)].
      * exists [], post. exact H.
      * exists (c :: pre), post. rewrite H. reflexivity.
    + intros (pre & post & H). destruct pre as [| x pre].
      * left. exists post. exact H.
      * right. injection H as _ H. exists pre, post. exact H.
Qed.

Lemma lowerUnit_idempotent (c : N) :
  flat_map lowerUnit (lowerUnit c) = lowerUnit c.
Proof.
  unfold lowerUnit at 2.
  destruct ((65 <=? c) && (c <=? 90))%N eqn:Hcap.
  - apply andb_true_iff in Hcap. destruct Hcap as [H1 H2].
    apply N.leb_le in H1, H2. cbn [flat_map]. rewrite app_nil_r.
    unfold lowerUnit. nsettle.
  - destruct (N.eqb_spec c 8490) as [-> | Hk]; [reflexivity |].
    destruct (N.eqb_spec c 304) as [-> | Hi]; [reflexivity |].
    cbn [flat_map]. rewrite app_nil_r. unfold lowerUnit. rewrite Hcap.
    destruct (N.eqb_spec c 8490); [contradiction |].
    destruct (N.eqb_spec c 304); [contradiction | reflexivity].
Qed.

Lemma toLowerCase_idempotent (s : jsstring) :
  toLowerCase (toLowerCase s) = toLowerCase s.
Proof.
  unfold toLowerCase. induction s as [| c s IH]; [reflexivity |].
  cbn [flat_map]. rewrite flat_map_app, lowerUnit_idempotent, IH.
  reflexivity.
Qed.

(** X23: a text mentions a brand exactly when the brand in lower case
    occurs in the text in lower case as a run of consecutive units; the
    test gives the same answer for the text, and for the brand, put in
    lower case beforehand. *)
Theorem mentions_is_caseless_substring (text brand : jsstring) :
  (mentions text brand = true
   <-> exists pre post,
         toLowerCase text = pre ++ toLowerCase brand ++ post)
  /\ mentions (toLowerCase text) brand = mentions text brand
  /\ mentions text (toLowerCase brand) = mentions text brand.
Proof.
  unfold mentions. rewrite !toLowerCase_idempotent.
  split; [apply includes_iff | split; reflexivity].
Qed.
